(** * The chat front ends of the Excel assistant

    A shallow embedding of the client-side coordination code:

    - [frontend/src/components/ChatComponent.jsx]: the React chat widget
      ([sendMessage], [uploadFile], [handleFeedbackSubmit]) and the
      [FeedbackPanel] it renders ([handleSubmit]);
    - [app/static/script.js]: the static page ([handleFile]).

    The React state hooks are the fields of a record, the handlers are
    computations of a small state-and-exception monad, and everything the
    handlers do to the outside (axios requests, [console] output, [alert])
    is appended to a log.  [Date.now()] reads an oracle.  An async handler
    is split at its [await]: the part that runs when the handler is called,
    and the part that runs when the promise settles.  A functional update
    [setMessages(prev => ...)] is queued by React and runs after the run of
    the handler, in the order of the calls.  Where the updater reads nothing
    that the rest of the run changes, the embedding applies it at the call;
    in the second half of [uploadFile], where the first updater reads the
    clock and the handler reads it again afterwards, the updaters are queued
    and run at the end.  The body of an answer is an object of the shape the
    endpoint documents; properties the shape marks optional may be
    missing. *)

From Stdlib Require Import ZArith List String Ascii Bool Lia.
From stdpp Require Import base decidable option list strings pretty gmap.

Local Open Scope string_scope.
Local Open Scope list_scope.

(** ** JavaScript strings

    A string is a sequence of code units; the embedding keeps the code
    units below 256. *)

Module JsString.

(** The code units below 256 that [String.prototype.trim] strips:
    TAB, LF, VT, FF, CR, SP and NBSP. *)
Definition is_white_space (c : ascii) : bool :=
  match nat_of_ascii c with
  | 9 | 10 | 11 | 12 | 13 | 32 | 160 => true
  | _ => false
  end.

Fixpoint trim_start (s : string) : string :=
  match s with
  | "" => ""
  | String c s' => if is_white_space c then trim_start s' else s
  end.

Fixpoint trim_end (s : string) : string :=
  match s with
  | "" => ""
  | String c s' =>
      match trim_end s' with
      | "" => if is_white_space c then "" else String c ""
      | t => String c t
      end
  end.

(** [s.trim()] *)
Definition trim (s : string) : string := trim_end (trim_start s).

(** [ToBoolean] of a string: only the empty string is falsy. *)
Definition truthy (s : string) : bool := negb (String.eqb s "").

(** [ToBoolean] of a string property that may be [undefined]. *)
Definition truthy_opt (o : option string) : bool :=
  match o with
  | Some s => truthy s
  | None => false
  end.

(** [a || b] where [a] is a string property that may be [undefined]. *)
Definition or_else (a : option string) (b : string) : string :=
  match a with
  | Some s => if truthy s then s else b
  | None => b
  end.

(** The canonicalisation of the [i] flag on a non-unicode regular
    expression, as far as it can make a code unit equal to an ASCII
    letter: ASCII upper case and lower case letters are identified. *)
Definition to_lower (c : ascii) : ascii :=
  let n := nat_of_ascii c in
  if (65 <=? n)%nat && (n <=? 90)%nat then ascii_of_nat (n + 32) else c.

Fixpoint lower (s : string) : string :=
  match s with
  | "" => ""
  | String c s' => String (to_lower c) (lower s')
  end.

(** [suffix] is matched at some position of [s] and the match ends at the
    end of [s]. *)
Fixpoint ends_with (suffix s : string) : bool :=
  String.eqb s suffix ||
  match s with
  | "" => false
  | String _ s' => ends_with suffix s'
  end.

(** [name.match(/\.(xlsx|xls)$/i)] is not [null]. *)
Definition match_excel (name : string) : bool :=
  ends_with ".xlsx" (lower name) || ends_with ".xls" (lower name).

End JsString.

(** ** Completions, and the monad of the handlers *)

Inductive js_error : Type :=
| TypeError (msg : string)
| AxiosError (msg : string).

Inductive completion (A : Type) : Type :=
| Normal (a : A)
| Throw (e : js_error).
Arguments Normal {A} a.
Arguments Throw {A} e.

Definition M (S A : Type) : Type := S -> completion A * S.

Definition ret {S A : Type} (a : A) : M S A := fun s => (Normal a, s).

Definition bind {S A B : Type} (m : M S A) (k : A -> M S B) : M S B :=
  fun s =>
    match m s with
    | (Normal a, s') => k a s'
    | (Throw e, s') => (Throw e, s')
    end.

Definition throw {S A : Type} (e : js_error) : M S A := fun s => (Throw e, s).

Definition modify {S : Type} (f : S -> S) : M S unit := fun s => (Normal tt, f s).

Definition gets {S A : Type} (f : S -> A) : M S A := fun s => (Normal (f s), s).

(** [try { body } catch (error) { handler }] *)
Definition try_catch {S A : Type} (body : M S A) (handler : js_error -> M S A)
  : M S A :=
  fun s =>
    match body s with
    | (Normal a, s') => (Normal a, s')
    | (Throw e, s') => handler e s'
    end.

(** [try { body } finally { fin }]: [fin] runs on both completions, and the
    completion of [body] stands unless [fin] throws. *)
Definition try_finally {S A : Type} (body : M S A) (fin : M S unit) : M S A :=
  fun s =>
    match body s with
    | (r, s') =>
        match fin s' with
        | (Normal _, s'') => (r, s'')
        | (Throw e, s'') => (Throw e, s'')
        end
    end.

Declare Scope js_scope.
Delimit Scope js_scope with js.
Notation "x <- m ;; k" := (bind m (fun x => k))
  (at level 100, m at next level, right associativity) : js_scope.
Notation "m ;;; k" := (bind m (fun _ => k))
  (at level 100, right associativity) : js_scope.
Local Open Scope js_scope.

(** What a settled axios promise delivers: [response.data] when it is
    fulfilled, the error when it is rejected (no connection, or a status
    outside 2xx). *)
Inductive axios_result (D : Type) : Type :=
| Resolved (data : D)
| Rejected (e : js_error).
Arguments Resolved {D} data.
Arguments Rejected {D} e.

(** [(await promise).data] *)
Definition await {S D : Type} (r : axios_result D) : M S D :=
  match r with
  | Resolved d => ret d
  | Rejected e => throw e
  end.

(** ** The data of ChatComponent.jsx *)

Definition API_BASE_URL : string := "http://localhost:8000".

(** The [accept] attribute of the file input. *)
Definition accept : list string := [".xlsx"; ".xls"; ".csv"].

(** A file name ends in one of the extensions of [accept]; extensions are
    compared without regard to ASCII case, as [accept] does. *)
Definition accepted_extension (name : string) : bool :=
  existsb (fun ext => JsString.ends_with ext (JsString.lower name)) accept.

Module File.
Record t : Type := mk { name : string; content : string }.
End File.

(** An element of [qaItems]. *)
Module QaItem.
Record t : Type := mk {
  id : string;
  question : string;
  answer : string;
  source : string
}.
End QaItem.

(** An element of [messages].  A property the object literal leaves out is
    [None] (or [false] for the flags, which are only tested for truth). *)
Module Msg.
Record t : Type := mk {
  id : option string;
  text : option string;
  isUser : bool;
  isQAContainer : bool;
  qaItems : option (list QaItem.t);
  showDownload : bool;
  downloadOnly : bool;
  question : option string;
  context : option (list string)
}.

(** [{ text, isUser }] *)
Definition plain (text : string) (isUser : bool) : t :=
  mk None (Some text) isUser false None false false None None.

(** [{ id, text, isUser: false }] *)
Definition with_id (id text : string) : t :=
  mk (Some id) (Some text) false false None false false None None.
End Msg.

(** The body of [POST /chat]'s answer. *)
Module ChatData.
Record t : Type := mk {
  response : option string;
  context : option (list string)
}.
End ChatData.

(** An element of [response.data.responses]. *)
Module UploadItem.
Record t : Type := mk {
  question : string;
  response : string;
  source : option string
}.
End UploadItem.

(** The body of [POST /upload]'s answer; [responses = None] is a body
    without the array. *)
Module UploadData.
Record t : Type := mk {
  status : string;
  responses : option (list UploadItem.t);
  message : option string
}.
End UploadData.

(** The body of [POST /feedback]'s answer. *)
Module FeedbackResp.
Record t : Type := mk { status : string }.
End FeedbackResp.

(** The argument [FeedbackPanel] passes to [onFeedbackSubmit]. *)
Module FeedbackData.
Record t : Type := mk {
  messageId : string;
  feedbackType : string;
  editedAnswer : string;
  relevance : Z;
  accuracy : Z
}.
End FeedbackData.

(** [completeData], the body of [POST /feedback]. *)
Module CompleteData.
Record t : Type := mk {
  feedbackData : FeedbackData.t;
  original_query : string;
  original_answer : string;
  context_used : list string
}.
End CompleteData.

Inductive post_body : Type :=
| ChatBody (message : string)
| UploadBody (file : File.t)
| FeedbackBody (completeData : CompleteData.t).

(** What a handler does to the outside. *)
Inductive event : Type :=
| AxiosPost (url : string) (body : post_body)
| ConsoleError (msg : string)
| ConsoleLog (msg : string)
| Alert (msg : string).

Definition is_request (e : event) : bool :=
  match e with
  | AxiosPost _ _ => true
  | _ => false
  end.

(** The state hooks of [ChatComponent], the clock [Date.now()] reads, and
    the log of events. *)
Record world : Type := mkWorld {
  messages : list Msg.t;
  input : string;
  isProcessing : bool;
  selectedFile : option File.t;
  feedbackVisibility : gmap string bool;
  clock : nat -> Z;
  ticks : nat;
  log : list event
}.

Definition setMessages (f : list Msg.t -> list Msg.t) : M world unit :=
  modify (fun w => mkWorld (f (messages w)) (input w) (isProcessing w)
                     (selectedFile w) (feedbackVisibility w)
                     (clock w) (ticks w) (log w)).

Definition setInput (v : string) : M world unit :=
  modify (fun w => mkWorld (messages w) v (isProcessing w)
                     (selectedFile w) (feedbackVisibility w)
                     (clock w) (ticks w) (log w)).

Definition setIsProcessing (v : bool) : M world unit :=
  modify (fun w => mkWorld (messages w) (input w) v
                     (selectedFile w) (feedbackVisibility w)
                     (clock w) (ticks w) (log w)).

Definition setSelectedFile (v : option File.t) : M world unit :=
  modify (fun w => mkWorld (messages w) (input w) (isProcessing w)
                     v (feedbackVisibility w)
                     (clock w) (ticks w) (log w)).

Definition setFeedbackVisibility (f : gmap string bool -> gmap string bool)
  : M world unit :=
  modify (fun w => mkWorld (messages w) (input w) (isProcessing w)
                     (selectedFile w) (f (feedbackVisibility w))
                     (clock w) (ticks w) (log w)).

Definition emit (e : event) : M world unit :=
  modify (fun w => mkWorld (messages w) (input w) (isProcessing w)
                     (selectedFile w) (feedbackVisibility w)
                     (clock w) (ticks w) (log w ++ [e])).

(** [Date.now()]: the next reading of the clock. *)
Definition Date_now : M world Z :=
  fun w => (Normal (clock w (ticks w)),
            mkWorld (messages w) (input w) (isProcessing w)
              (selectedFile w) (feedbackVisibility w)
              (clock w) (S (ticks w)) (log w)).

(** ** sendMessage *)

Definition fallback_text : string :=
  "Sorry, there was an error processing your request.".

(** From the call to the [await]. [None]: the handler returned at its
    guard. [Some userMessage]: the request is out. *)
Definition sendMessage_begin : M world (option string) :=
  i <- gets input ;;
  if negb (JsString.truthy (JsString.trim i)) then ret None
  else
    let userMessage := JsString.trim i in
    setMessages (fun prev => prev ++ [Msg.plain userMessage true]) ;;;
    setInput "" ;;;
    setIsProcessing true ;;;
    emit (AxiosPost (API_BASE_URL +:+ "/chat") (ChatBody userMessage)) ;;;
    ret (Some userMessage).

(** From the [await] to the end, [catch] and [finally] included. *)
Definition sendMessage_resume (userMessage : string)
    (r : axios_result ChatData.t) : M world unit :=
  try_finally
    (try_catch
       (data <- await r ;;
        now <- Date_now ;;
        let messageId := pretty now in
        setMessages (fun prev => prev ++ [
          Msg.mk (Some messageId)
            (Some (JsString.or_else (ChatData.response data)
                     "I couldn't process that request."))
            false false None false false
            (Some userMessage)
            (Some (default [] (ChatData.context data)))]))
       (fun error =>
          emit (ConsoleError "Error sending message:") ;;;
          now <- Date_now ;;
          setMessages (fun prev => prev ++ [
            Msg.with_id (pretty now) fallback_text])))
    (setIsProcessing false).

Definition sendMessage (r : axios_result ChatData.t) : M world unit :=
  o <- sendMessage_begin ;;
  match o with
  | None => ret tt
  | Some userMessage => sendMessage_resume userMessage r
  end.

(** ** uploadFile *)

(** [responses.map((item, index) => ({ id: `qa-item-${Date.now()}-${index}`, ... }))]:
    the callback reads the clock once per item. *)
Fixpoint map_qaItems (items : list UploadItem.t) (index : nat)
  : M world (list QaItem.t) :=
  match items with
  | [] => ret []
  | item :: rest =>
      now <- Date_now ;;
      let qaItem :=
        QaItem.mk ("qa-item-" +:+ pretty now +:+ "-" +:+ pretty index)
          (UploadItem.question item)
          (UploadItem.response item)
          (JsString.or_else (UploadItem.source item) "unknown") in
      qaItems <- map_qaItems rest (S index) ;;
      ret (qaItem :: qaItems)
  end.

(** [{ text: "", isUser: false, showDownload: true, downloadOnly: true }] *)
Definition download_message : Msg.t :=
  Msg.mk None (Some "") false false None true true None None.

(** From the call to the [await]. *)
Definition uploadFile_begin : M world (option File.t) :=
  f <- gets selectedFile ;;
  match f with
  | None => ret None
  | Some file =>
      setIsProcessing true ;;;
      setMessages (fun prev => prev ++ [
        Msg.plain ("Uploading and processing " +:+ File.name file +:+ "...")
          true]) ;;;
      emit (AxiosPost (API_BASE_URL +:+ "/upload") (UploadBody file)) ;;;
      ret (Some file)
  end.

(** The body of an updater [prev => [...prev, message]]: it builds the
    message when React runs it, and a [Date.now()] in it reads the clock
    then. *)
Definition updater : Type := M world Msg.t.

(** An operation on the state, in a run that also holds the queue of the
    updaters. *)
Definition lift {A : Type} (m : M world A) : M (world * list updater) A :=
  fun s =>
    match m (fst s) with
    | (r, w') => (r, (w', snd s))
    end.

(** [setMessages(prev => [...prev, message])]: the updater joins the
    queue. *)
Definition enqueue (u : updater) : M (world * list updater) unit :=
  modify (fun s => (fst s, snd s ++ [u])).

(** React runs the queued updaters, oldest first. *)
Fixpoint flush (queue : list updater) : M world unit :=
  match queue with
  | [] => ret tt
  | u :: rest =>
      message <- u ;;
      setMessages (fun prev => prev ++ [message]) ;;;
      flush rest
  end.

(** A run of a handler, then the updaters it queued; what is queued before
    an exception is thrown stays queued. *)
Definition commit (body : M (world * list updater) unit) : M world unit :=
  fun w =>
    match body (w, []) with
    | (r, (w', queue)) =>
        match flush queue w' with
        | (Normal _, w'') => (r, w'')
        | (Throw e, w'') => (Throw e, w'')
        end
    end.

(** From the [await] to the end, [catch] and [finally] included.  The
    confirmation's [`file-${Date.now()}`] is in the updater, so it reads the
    clock after [`qa-${Date.now()}`] and the items, which the handler reads
    while it builds [qaMessage]. *)
Definition uploadFile_resume (r : axios_result UploadData.t) : M world unit :=
  commit
    (try_finally
       (try_catch
          (data <- await r ;;
           (if String.eqb (UploadData.status data) "success" then
              enqueue
                (now <- Date_now ;;
                 ret (Msg.with_id ("file-" +:+ pretty now)
                        "File processed successfully! Here are the responses to your questions:")) ;;;
              now' <- lift Date_now ;;
              responses <-
                match UploadData.responses data with
                | Some l => ret l
                | None =>
                    throw (TypeError "Cannot read properties of undefined")
                end ;;
              qaItems <- lift (map_qaItems responses 0) ;;
              let qaMessage :=
                Msg.mk (Some ("qa-" +:+ pretty now')) None false true
                  (Some qaItems) false false None None in
              enqueue (ret qaMessage) ;;;
              enqueue (ret download_message)
            else
              enqueue
                (ret (Msg.plain
                        (JsString.or_else (UploadData.message data)
                           "File processed with some issues.")
                        false))) ;;;
           lift (setSelectedFile None))
          (fun error =>
             lift (emit (ConsoleError "Error uploading file:")) ;;;
             enqueue
               (ret (Msg.plain "Error processing the file. Please try again."
                       false))))
       (lift (setIsProcessing false))).

Definition uploadFile (r : axios_result UploadData.t) : M world unit :=
  o <- uploadFile_begin ;;
  match o with
  | None => ret tt
  | Some _ => uploadFile_resume r
  end.

(** ** handleFeedbackSubmit *)

(** [messages.find(msg => msg.id === feedbackData.messageId)] *)
Definition find_message (msgs : list Msg.t) (messageId : string)
  : option Msg.t :=
  List.find (fun msg => bool_decide (Msg.id msg = Some messageId)) msgs.

(** The loop over the QA containers: the first item with the id, in the
    first container that has one. *)
Fixpoint find_qa_item (msgs : list Msg.t) (messageId : string)
  : option QaItem.t :=
  match msgs with
  | [] => None
  | msg :: rest =>
      if Msg.isQAContainer msg then
        match Msg.qaItems msg with
        | Some items =>
            match List.find
                    (fun item => String.eqb (QaItem.id item) messageId)
                    items with
            | Some qaItem => Some qaItem
            | None => find_qa_item rest messageId
            end
        | None => find_qa_item rest messageId
        end
      else find_qa_item rest messageId
  end.

(** [message], [originalQuery] and [originalAnswer] as they stand before
    the test that follows the search. *)
Definition resolve (msgs : list Msg.t) (messageId : string)
  : option Msg.t * string * string :=
  match find_message msgs messageId with
  | None =>
      match find_qa_item msgs messageId with
      | Some qaItem => (None, QaItem.question qaItem, QaItem.answer qaItem)
      | None => (None, "", "")
      end
  | Some message =>
      (Some message,
       JsString.or_else (Msg.question message)
         (JsString.or_else (Msg.text message) ""),
       JsString.or_else (Msg.text message) "")
  end.

(** [message?.context || []] *)
Definition context_of (message : option Msg.t) : list string :=
  match message with
  | Some m => default [] (Msg.context m)
  | None => []
  end.

(** From the call to the [await]; [true] when the request is out.  The
    [try] block is open here already, and nothing before the [await]
    throws. *)
Definition handleFeedbackSubmit_begin (feedbackData : FeedbackData.t)
  : M world bool :=
  msgs <- gets messages ;;
  let '(message, originalQuery, originalAnswer) :=
    resolve msgs (FeedbackData.messageId feedbackData) in
  if negb (JsString.truthy originalQuery)
     && negb (JsString.truthy originalAnswer)
     && negb (bool_decide (is_Some message))
  then
    emit (ConsoleError "Could not find message or QA item for feedback") ;;;
    emit (Alert "Error processing feedback. Please try again.") ;;;
    ret false
  else
    let completeData :=
      CompleteData.mk feedbackData originalQuery originalAnswer
        (context_of message) in
    emit (ConsoleLog "Sending feedback data:") ;;;
    emit (AxiosPost (API_BASE_URL +:+ "/feedback") (FeedbackBody completeData)) ;;;
    ret true.

(** From the [await] to the end. *)
Definition handleFeedbackSubmit_resume (feedbackData : FeedbackData.t)
    (r : axios_result FeedbackResp.t) : M world unit :=
  try_catch
    (data <- await r ;;
     if String.eqb (FeedbackResp.status data) "success" then
       emit (Alert "Thank you for your feedback!") ;;;
       setFeedbackVisibility
         (fun prev => <[FeedbackData.messageId feedbackData := false]> prev)
     else ret tt)
    (fun error =>
       emit (ConsoleError "Error submitting feedback:") ;;;
       emit (Alert "Failed to submit feedback. Please try again.")).

Definition handleFeedbackSubmit (feedbackData : FeedbackData.t)
    (r : axios_result FeedbackResp.t) : M world unit :=
  sent <- handleFeedbackSubmit_begin feedbackData ;;
  if sent then handleFeedbackSubmit_resume feedbackData r else ret tt.

(** [toggleFeedback] and [handleCancelFeedback] *)
Definition toggleFeedback (messageId : string) : M world unit :=
  setFeedbackVisibility
    (fun prev => <[messageId := negb (default false (prev !! messageId))]> prev).

Definition handleCancelFeedback (messageId : string) : M world unit :=
  setFeedbackVisibility (fun prev => <[messageId := false]> prev).

(** The test under which the renderer puts the suggestion toggle and the
    panel below a message: [msg.isQAContainer] is falsy (the other branch
    renders the containers) and [!msg.isUser && !msg.downloadOnly && msg.id]. *)
Definition feedback_toggle_shown (msg : Msg.t) : bool :=
  negb (Msg.isQAContainer msg)
  && (negb (Msg.isUser msg) && negb (Msg.downloadOnly msg)
      && JsString.truthy_opt (Msg.id msg)).

(** ** FeedbackPanel *)

Module FeedbackPanel.

(** The two state hooks of the panel. *)
Record state : Type := mk { editedAnswer : string; error : string }.

(** [handleSubmit]: the new state of the panel, and the argument of the
    call to [onFeedbackSubmit] when there is one. *)
Definition handleSubmit (messageId : string) (p : state)
  : state * option FeedbackData.t :=
  if negb (JsString.truthy (JsString.trim (editedAnswer p))) then
    (mk (editedAnswer p) "Please enter at least one word before submitting.",
     None)
  else
    (mk "" "",
     Some (FeedbackData.mk messageId "correction" (editedAnswer p) 5 5)).

End FeedbackPanel.

(** A click on the panel's submit button, with [onFeedbackSubmit] bound to
    [handleFeedbackSubmit] as [ChatComponent] renders it. *)
Definition submit_panel (messageId : string) (p : FeedbackPanel.state)
    (r : axios_result FeedbackResp.t) : M world FeedbackPanel.state :=
  match FeedbackPanel.handleSubmit messageId p with
  | (p', Some feedbackData) => handleFeedbackSubmit feedbackData r ;;; ret p'
  | (p', None) => ret p'
  end.

(** The state hooks as [useState] initialises them. *)
Definition initial_world (clock : nat -> Z) : world :=
  mkWorld [] "" false None ∅ clock 0 [].

(** The ids a message carries: its own, and those of its QA items. *)
Definition ids_of (msg : Msg.t) : list string :=
  option_list (Msg.id msg) ++ map QaItem.id (default [] (Msg.qaItems msg)).

Definition session_ids (msgs : list Msg.t) : list string :=
  flat_map ids_of msgs.

(** The events a handler added to the log. *)
Definition new_events (before after : world) : list event :=
  drop (length (log before)) (log after).

(** ** The static page, script.js *)

Module Static.

(** What [createMessageElement(type, text, source)] builds. *)
Record element : Type := mkElement {
  type : string;
  text : string;
  source : string
}.

Inductive request : Type :=
| Fetch (url : string) (file : File.t).

(** The parts of the document [handleFile] touches, and the requests
    sent. *)
Record page : Type := mkPage {
  chatContainer : list element;
  notifications : list (string * string);
  progressBar_hidden : bool;
  progress_width : string;
  requests : list request
}.

(** [showNotification(message, type)] *)
Definition showNotification (message type : string) : M page unit :=
  modify (fun p => mkPage (chatContainer p)
                     (notifications p ++ [(message, type)])
                     (progressBar_hidden p) (progress_width p) (requests p)).

Definition thinkingMessage : element :=
  mkElement "response"
    "Processing your questions. This may take a moment..." "AI".

(** [handleFile] from the call to its first [await]; [true] when the
    request is out. *)
Definition handleFile_begin (file : File.t) : M page bool :=
  if negb (JsString.match_excel (File.name file)) then
    showNotification "Please upload an Excel file (.xlsx or .xls)" "error" ;;;
    ret false
  else
    modify (fun p => mkPage [thinkingMessage] (notifications p)
                       false "30%"
                       (requests p ++ [Fetch "/upload" file])) ;;;
    ret true.

End Static.

(** * Properties *)

(** Worlds and answers the examples run on. *)
Definition frozen_clock : nat -> Z := fun _ => 1700000000000%Z.

Definition running_clock : nat -> Z := fun n => (1700000000000 + Z.of_nat n)%Z.

Definition typed (text : string) (w : world) : world :=
  mkWorld (messages w) text (isProcessing w) (selectedFile w)
    (feedbackVisibility w) (clock w) (ticks w) (log w).

Definition network_error : js_error := AxiosError "Network Error".

Definition selected (file : File.t) (w : world) : world :=
  mkWorld (messages w) (input w) (isProcessing w) (Some file)
    (feedbackVisibility w) (clock w) (ticks w) (log w).

Definition budget_xlsx : File.t := File.mk "budget.xlsx" "".

Definition report_pdf : File.t := File.mk "report.pdf" "".

Definition upload_success (items : list UploadItem.t)
  : axios_result UploadData.t :=
  Resolved (UploadData.mk "success" (Some items) None).

(** The session after [budget.xlsx] came back with [items]. *)
Definition after_upload (items : list UploadItem.t) : world :=
  snd (uploadFile (upload_success items)
         (selected budget_xlsx (initial_world running_clock))).

(** The same upload while the clock stands still: every id of the upload
    is built from the one reading. *)
Definition after_upload_frozen (items : list UploadItem.t) : world :=
  snd (uploadFile (upload_success items)
         (selected budget_xlsx (initial_world frozen_clock))).

(** The same session once the suggestion form of [messageId] is open. *)
Definition form_open (messageId : string) (w : world) : world :=
  snd (toggleFeedback messageId w).

Definition correction (messageId : string) : FeedbackData.t :=
  FeedbackData.mk messageId "correction" "A better answer" 5 5.

Definition feedback_success : axios_result FeedbackResp.t :=
  Resolved (FeedbackResp.mk "success").

Definition chat_reply (text : string) : axios_result ChatData.t :=
  Resolved (ChatData.mk (Some text) None).

(** Two questions answered while the clock shows the same millisecond. *)
Definition two_replies : world :=
  snd (sendMessage (chat_reply "Second answer")
         (typed "Second question"
            (snd (sendMessage (chat_reply "First answer")
                    (typed "First question" (initial_world frozen_clock)))))).

(** The id of the QA item built at clock reading [now] for [index]. *)
Definition item_id (now : Z) (index : nat) : string :=
  "qa-item-" +:+ pretty now +:+ "-" +:+ pretty index.

(** The list [map_qaItems] returns, read off the clock: item [i] takes the
    reading number [t + i]. *)
Fixpoint qaItems_from (clock : nat -> Z) (t index : nat)
    (items : list UploadItem.t) : list QaItem.t :=
  match items with
  | [] => []
  | item :: rest =>
      QaItem.mk (item_id (clock t) index)
        (UploadItem.question item) (UploadItem.response item)
        (JsString.or_else (UploadItem.source item) "unknown")
      :: qaItems_from clock (S t) (S index) rest
  end.

(** The handling of an [/upload] answer reaches the end of the [try]
    block: the status is not ["success"], or the array is there. *)
Definition upload_handled (data : UploadData.t) : bool :=
  negb (String.eqb (UploadData.status data) "success")
  || bool_decide (is_Some (UploadData.responses data)).

Definition is_digit (c : ascii) : bool :=
  let n := nat_of_ascii c in (48 <=? n)%nat && (n <=? 57)%nat.

Fixpoint is_digits (s : string) : bool :=
  match s with
  | "" => true
  | String c s' => is_digit c && is_digits s'
  end.

(** ** The other handlers of ChatComponent *)

(** [handleFileChange]: [e.target.files] is the list [files]. *)
Definition handleFileChange (files : list File.t) : M world unit :=
  match files with
  | file :: _ => setSelectedFile (Some file)
  | [] => ret tt
  end.

(** The [onClick] of the toggle below a regular message:
    [setFeedbackVisibility(prev => ({...prev, [msg.id]: true}))]. *)
Definition openFeedback (messageId : string) : M world unit :=
  setFeedbackVisibility (fun prev => <[messageId := true]> prev).

(** [feedbackVisibility[id]] as the renderer tests it: a missing key is
    [undefined], which is falsy. *)
Definition panel_visible (w : world) (id : string) : bool :=
  default false (feedbackVisibility w !! id).

(** What can happen in a session, one uninterrupted run of JavaScript at a
    time: an event handler up to its [await], or the rest of a handler when
    its promise settles. *)
Inductive step : Type :=
| TypeInput (value : string)
| ChooseFiles (files : list File.t)
| SendCalled
| SendSettled (userMessage : string) (r : axios_result ChatData.t)
| UploadCalled
| UploadSettled (r : axios_result UploadData.t)
| FeedbackCalled (feedbackData : FeedbackData.t)
| FeedbackSettled (feedbackData : FeedbackData.t)
    (r : axios_result FeedbackResp.t)
| ToggleClicked (messageId : string)
| OpenClicked (messageId : string)
| CancelClicked (messageId : string).

Definition run_step (s : step) : M world unit :=
  match s with
  | TypeInput value => setInput value
  | ChooseFiles files => handleFileChange files
  | SendCalled => (sendMessage_begin ;;; ret tt)
  | SendSettled userMessage r => sendMessage_resume userMessage r
  | UploadCalled => (uploadFile_begin ;;; ret tt)
  | UploadSettled r => uploadFile_resume r
  | FeedbackCalled feedbackData =>
      (handleFeedbackSubmit_begin feedbackData ;;; ret tt)
  | FeedbackSettled feedbackData r =>
      handleFeedbackSubmit_resume feedbackData r
  | ToggleClicked messageId => toggleFeedback messageId
  | OpenClicked messageId => openFeedback messageId
  | CancelClicked messageId => handleCancelFeedback messageId
  end.

(** The state after a sequence of steps. *)
Fixpoint run_steps (steps : list step) (w : world) : world :=
  match steps with
  | [] => w
  | s :: rest => run_steps rest (snd (run_step s w))
  end.

(** Every code unit of the string is white space. *)
Definition blank (s : string) : bool :=
  forallb JsString.is_white_space (list_ascii_of_string s).

(** The ids the handlers give to the entries of [messages] at clock
    reading [now]: [Date.now().toString()], [`file-${Date.now()}`] and
    [`qa-${Date.now()}`]. *)
Definition flat_id (now : Z) (s : string) : Prop :=
  s = pretty now \/ s = "file-" +:+ pretty now \/ s = "qa-" +:+ pretty now.

(** The ids that [new] carries were built from the readings number [lo] to
    [hi - 1] of the clock. *)
Definition ids_between (clock : nat -> Z) (lo hi : nat) (new : list Msg.t)
  : Prop :=
  (forall m s, In m new -> Msg.id m = Some s ->
     exists t, lo <= t < hi /\ flat_id (clock t) s)
  /\ (forall m items q, In m new -> Msg.qaItems m = Some items -> In q items ->
        exists t index, lo <= t < hi /\ QaItem.id q = item_id (clock t) index).

(** A session used as an example: a question and its answer, then a file
    and its two pairs. *)
Definition sample_session : list step :=
  [TypeInput "What is the project status?";
   SendCalled;
   SendSettled "What is the project status?" (chat_reply "On track");
   ChooseFiles [budget_xlsx];
   UploadCalled;
   UploadSettled
     (upload_success [UploadItem.mk "Q1 spend?" "$10k" (Some "sheet1");
                      UploadItem.mk "Q2 spend?" "$12k" None])].

(** ** script.js: what follows the [await]s, and the chat section *)

(** What a [fetch] followed by [response.json()] delivers: [fetch] rejects
    (its error has [message]); or there is a response, with its [ok] flag,
    whose body is not JSON ([response.json()] rejects with an error that has
    [message]) or is the JSON value [data]. *)
Inductive fetched (D : Type) : Type :=
| NoResponse (message : string)
| NotJson (ok : bool) (message : string)
| Json (ok : bool) (data : D).
Arguments NoResponse {D} message.
Arguments NotJson {D} ok message.
Arguments Json {D} ok data.

Module UploadPage.

(** A child of [chatContainer]: an element built by
    [createMessageElement], or the [div.empty-message]. *)
Inductive child : Type :=
| MessageElement (e : Static.element)
| EmptyMessage (text : string).

(** A node of the document: [removeChild] and [contains] go by the
    identity of the node, not by what it shows. *)
Record node : Type := mkNode { node_id : nat; content : child }.

(** The callbacks given to [setTimeout] that touch the container or the
    progress bar. *)
Inductive callback : Type :=
| ResetProgress
| AppendMessage (type text source : string).

(** The upload section: the children of [chatContainer], the number the
    next node created gets, the notifications shown so far, the progress
    bar, the requests sent, and the calls [setTimeout(callback, delay)] in
    the order they were made. *)
Record state : Type := mk {
  chatContainer : list node;
  next_node : nat;
  notifications : list (string * string);
  progressBar_hidden : bool;
  progress_width : string;
  requests : list Static.request;
  timeouts : list (nat * callback)
}.

(** The same section without the identity of the nodes and without the
    timers: the children that are message elements. *)
Definition erase (s : state) : Static.page :=
  Static.mkPage
    (flat_map (fun n => match content n with
                        | MessageElement e => [e]
                        | EmptyMessage _ => []
                        end) (chatContainer s))
    (notifications s) (progressBar_hidden s) (progress_width s) (requests s).

(** [showNotification(message, type)]; the timers that animate and remove
    the notification are left out. *)
Definition showNotification (message type : string) (s : state) : state :=
  mk (chatContainer s) (next_node s) (notifications s ++ [(message, type)])
    (progressBar_hidden s) (progress_width s) (requests s) (timeouts s).

(** [chatContainer.appendChild(...)] of a node created now. *)
Definition appendChild (c : child) (s : state) : state :=
  mk (chatContainer s ++ [mkNode (next_node s) c]) (S (next_node s))
    (notifications s) (progressBar_hidden s) (progress_width s) (requests s)
    (timeouts s).

(** [progressBar.hidden = true; progress.style.width = '0%'] *)
Definition resetProgress (s : state) : state :=
  mk (chatContainer s) (next_node s) (notifications s) true "0%"
    (requests s) (timeouts s).

(** [chatContainer.contains(node)] for a child of the container. *)
Definition contains (id : nat) (s : state) : bool :=
  existsb (fun n => Nat.eqb (node_id n) id) (chatContainer s).

(** The children once the node is removed. *)
Definition without (id : nat) (s : state) : state :=
  mk (List.filter (fun n => negb (Nat.eqb (node_id n) id)) (chatContainer s))
    (next_node s) (notifications s) (progressBar_hidden s) (progress_width s)
    (requests s) (timeouts s).

(** The [forEach] of [displayResponses]: two timers per pair, [delay]
    growing by 300 after each. *)
Fixpoint schedule (responses : list UploadItem.t) (delay : nat)
  : list (nat * callback) :=
  match responses with
  | [] => []
  | item :: rest =>
      (delay, AppendMessage "question" (UploadItem.question item) "User")
      :: (delay + 300,
          AppendMessage "response" (UploadItem.response item)
            (JsString.or_else (UploadItem.source item) "AI Assistant"))
      :: schedule rest (delay + 300 + 300)
  end.

(** The text of the [div.empty-message]; the word [questions] is between
    double quotes, code unit 34. *)
Definition no_questions_text : string :=
  "No questions found in the uploaded file. Please ensure your Excel file contains a "
  +:+ String (ascii_of_nat 34) "questions"
  +:+ String (ascii_of_nat 34) " column.".

(** [displayResponses(responses)] *)
Definition displayResponses (responses : option (list UploadItem.t))
    (s : state) : state :=
  match responses with
  | None | Some [] => appendChild (EmptyMessage no_questions_text) s
  | Some l =>
      mk (chatContainer s) (next_node s) (notifications s)
        (progressBar_hidden s) (progress_width s) (requests s)
        (timeouts s ++ schedule l 0)
  end.

(** [handleFile] from the call to its first [await]: the new state, and
    the thinking message when the request is out. *)
Definition handleFile_begin (file : File.t) (s : state)
  : state * option nat :=
  if negb (JsString.match_excel (File.name file)) then
    (showNotification "Please upload an Excel file (.xlsx or .xls)" "error" s,
     None)
  else
    (mk [mkNode (next_node s) (MessageElement Static.thinkingMessage)]
       (S (next_node s)) (notifications s) false "30%"
       (requests s ++ [Static.Fetch "/upload" file]) (timeouts s),
     Some (next_node s)).

(** The [catch] block of [handleFile]. *)
Definition handleFile_catch (thinkingMessage : nat) (message : string)
    (s : state) : state :=
  resetProgress
    (showNotification ("Error uploading file: " +:+ message) "error"
       (if contains thinkingMessage s then without thinkingMessage s else s)).

(** [handleFile] from its first [await] to the end.  [notAChild] is the
    message of the exception [removeChild] throws for a node that is not a
    child of the container. *)
Definition handleFile_settled (thinkingMessage : nat)
    (r : fetched UploadData.t) (notAChild : string) (s : state) : state :=
  match r with
  | NoResponse message => handleFile_catch thinkingMessage message s
  | NotJson _ message => handleFile_catch thinkingMessage message s
  | Json _ data =>
      if contains thinkingMessage s then
        let s1 := without thinkingMessage s in
        if String.eqb (UploadData.status data) "success" then
          let s2 :=
            mk (chatContainer s1) (next_node s1) (notifications s1)
              (progressBar_hidden s1) "100%" (requests s1)
              (timeouts s1 ++ [(1000, ResetProgress)]) in
          showNotification "File processed successfully!" "success"
            (displayResponses (UploadData.responses data) s2)
        else
          resetProgress
            (showNotification
               ("Error: " +:+ default "undefined" (UploadData.message data))
               "error" s1)
      else handleFile_catch thinkingMessage notAChild s
  end.

(** A timer fires. *)
Definition fire (c : callback) (s : state) : state :=
  match c with
  | ResetProgress => resetProgress s
  | AppendMessage type text source =>
      appendChild (MessageElement (Static.mkElement type text source)) s
  end.

(** Timers set during one run of a handler fire by growing delay, and in
    the order of the calls when the delays are equal. *)
Fixpoint insert_timeout (x : nat * callback) (l : list (nat * callback))
  : list (nat * callback) :=
  match l with
  | [] => [x]
  | y :: rest =>
      if (fst x <? fst y)%nat then x :: l else y :: insert_timeout x rest
  end.

Definition firing_order (l : list (nat * callback)) : list callback :=
  map snd (fold_left (fun sorted x => insert_timeout x sorted) l []).

(** All the pending timers fire. *)
Definition fire_all (s : state) : state :=
  fold_left (fun s c => fire c s) (firing_order (timeouts s))
    (mk (chatContainer s) (next_node s) (notifications s)
       (progressBar_hidden s) (progress_width s) (requests s) []).

(** The source tag [createMessageElement] puts below the text: only on a
    response with a truthy source. *)
Definition source_tag (e : Static.element) : option string :=
  if String.eqb (Static.type e) "response" && JsString.truthy (Static.source e)
  then Some ("Source: " +:+ Static.source e)
  else None.

(** The questions and the answers as [displayResponses] shows them. *)
Fixpoint shown (responses : list UploadItem.t) : list child :=
  match responses with
  | [] => []
  | item :: rest =>
      MessageElement
        (Static.mkElement "question" (UploadItem.question item) "User")
      :: MessageElement
           (Static.mkElement "response" (UploadItem.response item)
              (JsString.or_else (UploadItem.source item) "AI Assistant"))
      :: shown rest
  end.

Definition initial : state := mk [] 0 [] true "" [] [].

(** The timers are listed by growing delay. *)
Fixpoint ordered (l : list (nat * callback)) : Prop :=
  match l with
  | [] => True
  | x :: rest => Forall (fun y => fst x <= fst y) rest /\ ordered rest
  end.

Definition appends (x : nat * callback) : bool :=
  match snd x with
  | AppendMessage _ _ _ => true
  | ResetProgress => false
  end.

(** The children the callbacks append, in the order they fire. *)
Definition appended (cs : list callback) : list child :=
  flat_map (fun c => match c with
                     | AppendMessage type text source =>
                         [MessageElement (Static.mkElement type text source)]
                     | ResetProgress => []
                     end) cs.

End UploadPage.

Module ChatModel.

(** The body of the answer of [/chat]. *)
Record answer : Type := mkAnswer { response : string }.

(** The chat section: the bubbles [(text, type)] of [chatModelContainer],
    the value of [chatModelInput], the messages posted to [/chat] and the
    lines written with [console.error]. *)
Record state : Type := mk {
  chatModelContainer : list (string * string);
  chatModelInput : string;
  posted : list string;
  console : list string
}.

(** [addChatBubble(chatModelContainer, text, type)] *)
Definition addChatBubble (text type : string) (s : state) : state :=
  mk (chatModelContainer s ++ [(text, type)]) (chatModelInput s) (posted s)
    (console s).

(** The click on the send button, to the [await]; the message when the
    request is out. *)
Definition click_begin (s : state) : state * option string :=
  let userMessage := JsString.trim (chatModelInput s) in
  if negb (JsString.truthy userMessage) then (s, None)
  else
    let s1 := addChatBubble userMessage "question" s in
    (mk (chatModelContainer s1) "" (posted s1 ++ [userMessage]) (console s1),
     Some userMessage).

Definition apology (s : state) : state :=
  addChatBubble "Sorry, something went wrong." "response"
    (mk (chatModelContainer s) (chatModelInput s) (posted s)
       (console s ++ ["Error in chat model:"])).

(** The rest of the handler. *)
Definition click_settled (r : fetched answer) (s : state) : state :=
  match r with
  | NoResponse _ => apology s
  | NotJson _ _ => apology s
  | Json ok data =>
      if ok then addChatBubble (response data) "response" s else apology s
  end.

Definition click (r : fetched answer) (s : state) : state :=
  match click_begin s with
  | (s1, Some _) => click_settled r s1
  | (s1, None) => s1
  end.

End ChatModel.

(** An entry that carries an id is an assistant entry, is not the download
    prompt, and its id is truthy. *)
Definition id_on_assistant_entry (m : Msg.t) : Prop :=
  forall s, Msg.id m = Some s ->
    Msg.isUser m = false /\ Msg.downloadOnly m = false
    /\ JsString.truthy s = true.

(** Runs a handler: the operations of the monad are unfolded and the
    result is computed as far as the data allows. *)
Ltac run_monad :=
  unfold commit, lift, enqueue, try_finally, try_catch, bind, await, ret,
    throw, gets, Date_now, setMessages, setInput, setSelectedFile,
    setIsProcessing, setFeedbackVisibility, emit, modify;
  cbn -[pretty].

(** ** sendMessage *)

Lemma sendMessage_begin_nonempty (w : world) :
  JsString.truthy (JsString.trim (input w)) = true ->
  sendMessage_begin w =
    (Normal (Some (JsString.trim (input w))),
     mkWorld (messages w ++ [Msg.plain (JsString.trim (input w)) true])
       "" true (selectedFile w) (feedbackVisibility w) (clock w) (ticks w)
       (log w ++ [AxiosPost (API_BASE_URL +:+ "/chat")
                    (ChatBody (JsString.trim (input w)))])).
Proof.
  intros H. unfold sendMessage_begin, bind, gets. simpl. rewrite H. reflexivity.
Qed.

(** The scenario of the specification: one question, one answer. *)
Example sendMessage_project_status :
  messages
    (snd (sendMessage
            (Resolved (ChatData.mk (Some "On track") (Some [])))
            (typed "What is the project status?" (initial_world running_clock))))
  = [Msg.plain "What is the project status?" true;
     Msg.mk (Some "1700000000000") (Some "On track") false false None
       false false (Some "What is the project status?") (Some [])].
Proof. reflexivity. Qed.

(** [sendMessage('   ')] changes nothing. *)
Example sendMessage_blank (w : world) :
  JsString.trim (input w) = "" -> sendMessage_begin w = (Normal None, w).
Proof.
  intros H. unfold sendMessage_begin, bind, gets. simpl. rewrite H. reflexivity.
Qed.

(** What the second half of [sendMessage] does, case by case. *)
Lemma sendMessage_resume_cases (userMessage : string)
    (r : axios_result ChatData.t) (w : world) :
  exists assistant n,
    sendMessage_resume userMessage r w =
      (Normal tt,
       mkWorld (messages w ++ [assistant]) (input w) false (selectedFile w)
         (feedbackVisibility w) (clock w) n (log w ++
           match r with
           | Resolved _ => []
           | Rejected _ => [ConsoleError "Error sending message:"]
           end))
    /\ Msg.isUser assistant = false.
Proof.
  destruct r as [d|e]; unfold sendMessage_resume, try_finally, try_catch,
    bind, await, ret, throw, Date_now, setMessages, setIsProcessing,
    emit, modify; simpl; rewrite ?app_nil_r; eauto.
Qed.

(** C1: for an input that is not empty once trimmed, the call to
    [sendMessage] appends exactly one user message (the trimmed input) and
    sends the request; when the request completes, with a response or with a
    failure and whatever the state then is, the handler appends exactly one
    assistant message, sets [isProcessing] to [false] and completes normally;
    so does the whole handler run in one go. *)
Theorem sendMessage_one_user_one_assistant (w : world)
    (r : axios_result ChatData.t) :
  JsString.truthy (JsString.trim (input w)) = true ->
  let userMessage := JsString.trim (input w) in
  (exists w1,
      sendMessage_begin w = (Normal (Some userMessage), w1)
      /\ messages w1 = messages w ++ [Msg.plain userMessage true])
  /\ (forall w2, exists assistant w3,
         sendMessage_resume userMessage r w2 = (Normal tt, w3)
         /\ messages w3 = messages w2 ++ [assistant]
         /\ Msg.isUser assistant = false
         /\ isProcessing w3 = false)
  /\ (exists assistant w',
         sendMessage r w = (Normal tt, w')
         /\ messages w' = messages w ++ [Msg.plain userMessage true; assistant]
         /\ Msg.isUser assistant = false
         /\ isProcessing w' = false).
Proof.
  intros H userMessage. split; [|split].
  - eexists. split; [apply sendMessage_begin_nonempty; exact H | reflexivity].
  - intros w2.
    destruct (sendMessage_resume_cases userMessage r w2) as (a & n & E & Ha).
    exists a. eexists. split; [exact E|]. auto.
  - unfold sendMessage, bind. rewrite (sendMessage_begin_nonempty w H).
    match goal with
    | |- context [sendMessage_resume ?u r ?w1] =>
        destruct (sendMessage_resume_cases u r w1) as (a & n & E & Ha)
    end.
    exists a. eexists. split; [exact E|]. simpl.
    rewrite <- app_assoc. auto.
Qed.

Lemma sendMessage_one_user_one_assistant_witness :
  exists assistant w',
    sendMessage (Rejected network_error)
      (typed "  hi  " (initial_world frozen_clock)) = (Normal tt, w')
    /\ messages w' = [Msg.plain "hi" true; assistant]
    /\ isProcessing w' = false.
Proof.
  destruct (sendMessage_one_user_one_assistant
              (typed "  hi  " (initial_world frozen_clock))
              (Rejected network_error) eq_refl)
    as (_ & _ & a & w' & E & Hm & _ & Hp).
  exists a, w'. auto.
Defined.

Lemma pretty_N_go_nonempty (x : N) (s : string) :
  s <> "" -> pretty_N_go x s <> "".
Proof.
  revert s. induction (N.lt_wf_0 x) as [x _ IH]. intros s Hs.
  destruct (decide (x = 0%N)) as [->|Hx].
  - by rewrite pretty_N_go_0.
  - rewrite pretty_N_go_step by lia. apply IH; [apply N.div_lt; lia|done].
Qed.

(** The decimal of a number is not the empty string: as an [id] it is
    truthy. *)
Lemma pretty_Z_truthy (z : Z) : JsString.truthy (pretty z) = true.
Proof.
  unfold JsString.truthy. apply negb_true_iff, String.eqb_neq.
  destruct z as [|p|p]; [done| |done].
  change (pretty (Z.pos p)) with (pretty (N.pos p)).
  unfold pretty, pretty_N. case_decide; [done|].
  rewrite pretty_N_go_step by lia. by apply pretty_N_go_nonempty.
Qed.

(** The failed request: the message the [catch] block appends carries the
    reading of the clock as its [id], and the renderer offers feedback on
    it. *)
Lemma sendMessage_fallback_has_id :
  exists w',
    sendMessage_resume "hi" (Rejected network_error)
      (initial_world frozen_clock) = (Normal tt, w')
    /\ messages w' = [Msg.with_id "1700000000000" fallback_text]
    /\ Msg.id (Msg.with_id "1700000000000" fallback_text) <> None
    /\ feedback_toggle_shown (Msg.with_id "1700000000000" fallback_text)
       = true.
Proof. eexists. repeat split. discriminate. Qed.

(** C2, amended: when the chat request fails, [sendMessage] appends one
    assistant message whose text is exactly the fallback sentence, without
    [question] or [context], and whose [id] is the decimal of the clock's
    reading: the message carries an id, and the renderer shows the
    suggestion toggle below it. *)
Theorem sendMessage_failure_fallback (userMessage : string) (e : js_error)
    (w : world) :
  exists w' fallback,
    sendMessage_resume userMessage (Rejected e) w = (Normal tt, w')
    /\ messages w' = messages w ++ [fallback]
    /\ fallback = Msg.with_id (pretty (clock w (ticks w))) fallback_text
    /\ Msg.text fallback
       = Some "Sorry, there was an error processing your request."
    /\ Msg.isUser fallback = false
    /\ Msg.id fallback = Some (pretty (clock w (ticks w)))
    /\ feedback_toggle_shown fallback = true
    /\ isProcessing w' = false.
Proof.
  do 2 eexists. split; [reflexivity|].
  repeat (split; [reflexivity|]).
  split; [|reflexivity].
  unfold feedback_toggle_shown. cbn -[pretty]. apply pretty_Z_truthy.
Qed.

(** ** uploadFile *)

(** The request is rejected: the file stays selected. *)
Lemma uploadFile_rejected_keeps_file :
  selectedFile
    (snd (uploadFile (Rejected network_error)
            (mkWorld [] "" false (Some (File.mk "budget.xlsx" "")) ∅
               frozen_clock 0 [])))
  = Some (File.mk "budget.xlsx" "").
Proof. reflexivity. Qed.

(** *** Decimal numerals and the ids built from them *)

Lemma pretty_N_char_digit (x : N) : is_digit (pretty_N_char x) = true.
Proof. unfold pretty_N_char. repeat case_match; reflexivity. Qed.

Lemma pretty_N_go_digits (x : N) (s : string) :
  is_digits s = true -> is_digits (pretty_N_go x s) = true.
Proof.
  revert s. induction (N.lt_wf_0 x) as [x _ IH]. intros s Hs.
  destruct (decide (x = 0%N)) as [->|Hx].
  - rewrite pretty_N_go_0. exact Hs.
  - rewrite pretty_N_go_step by lia.
    apply IH.
    + apply N.div_lt; lia.
    + simpl. rewrite pretty_N_char_digit. exact Hs.
Qed.

Lemma pretty_N_digits (x : N) : is_digits (pretty x) = true.
Proof.
  unfold pretty, pretty_N. case_decide; [reflexivity|].
  apply pretty_N_go_digits. reflexivity.
Qed.

Lemma pretty_nat_digits (n : nat) : is_digits (pretty n) = true.
Proof. apply pretty_N_digits. Qed.

Lemma string_app_nil (s : string) : "" +:+ s = s.
Proof. reflexivity. Qed.

Lemma string_app_cons (c : ascii) (a s : string) :
  String c a +:+ s = String c (a +:+ s).
Proof. reflexivity. Qed.

(** A numeral has no dash in it, so the index of an item id is what
    follows the last dash. *)
Lemma digits_no_dash (a b : string) :
  is_digits (a +:+ String "-" b) = false.
Proof.
  induction a as [|c a IH]; [reflexivity|].
  rewrite string_app_cons. cbn [is_digits]. rewrite IH. apply andb_false_r.
Qed.

Lemma after_last_dash (a b d e : string) :
  is_digits d = true -> is_digits e = true ->
  a +:+ String "-" d = b +:+ String "-" e -> d = e.
Proof.
  revert b. induction a as [|c a IH]; intros [|c' b] Hd He Heq;
    rewrite ?string_app_nil, ?string_app_cons in Heq.
  - congruence.
  - injection Heq as _ ->. pose proof (digits_no_dash b e). congruence.
  - injection Heq as _ <-. pose proof (digits_no_dash a d). congruence.
  - injection Heq as _ Heq. eauto.
Qed.

Lemma item_id_index (now now' : Z) (i j : nat) :
  item_id now i = item_id now' j -> i = j.
Proof.
  unfold item_id. intros H.
  apply (inj (String.app "qa-item-")) in H.
  apply after_last_dash in H; auto using pretty_nat_digits.
  by apply (inj pretty) in H.
Qed.

(** The id of a QA container never is the id of an item: after ["qa-"]
    comes a numeral in the one and the letter [i] in the other. *)
Lemma container_id_not_item_id (now now' : Z) (i : nat) :
  "qa-" +:+ pretty now <> item_id now' i.
Proof.
  unfold item_id. intros H.
  apply (inj (String.app "qa-")) in H.
  destruct now as [|p|p]; try discriminate.
  pose proof (pretty_N_digits (N.pos p)) as D.
  change (pretty (Z.pos p)) with (pretty (N.pos p)) in H.
  rewrite H in D. discriminate.
Qed.

(** *** The items of one upload *)

Lemma map_qaItems_run (items : list UploadItem.t) (index : nat) (w : world) :
  map_qaItems items index w =
    (Normal (qaItems_from (clock w) (ticks w) index items),
     mkWorld (messages w) (input w) (isProcessing w) (selectedFile w)
       (feedbackVisibility w) (clock w) (ticks w + length items) (log w)).
Proof.
  revert index w. induction items as [|item rest IH]; intros index w.
  - simpl. unfold ret. rewrite Nat.add_0_r. by destruct w.
  - cbn [map_qaItems]. unfold bind at 1. unfold Date_now.
    unfold bind at 1. rewrite IH. cbn.
    unfold ret. do 3 f_equal. lia.
Qed.

Lemma qaItems_from_length clock t index items :
  length (qaItems_from clock t index items) = length items.
Proof.
  revert t index. induction items as [|item rest IH]; intros; simpl; auto.
Qed.

Lemma qaItems_from_lookup clock t index items (i : nat) (item : UploadItem.t) :
  items !! i = Some item ->
  qaItems_from clock t index items !! i =
    Some (QaItem.mk (item_id (clock (t + i)) (index + i))
            (UploadItem.question item) (UploadItem.response item)
            (JsString.or_else (UploadItem.source item) "unknown")).
Proof.
  revert t index i. induction items as [|x rest IH]; intros t index [|i] H;
    simpl in *; try discriminate.
  - injection H as ->. by rewrite !Nat.add_0_r.
  - rewrite (IH _ _ _ H).
    replace (S t + i) with (t + S i) by lia.
    by replace (S index + i) with (index + S i) by lia.
Qed.

Lemma qaItems_from_ids clock t index items (s : string) :
  In s (map QaItem.id (qaItems_from clock t index items)) ->
  exists now j, s = item_id now j /\ index <= j.
Proof.
  revert t index. induction items as [|x rest IH]; intros t index H;
    simpl in H; [contradiction|].
  destruct H as [<-|H]; [exists (clock t), index; split; [reflexivity|lia]|].
  apply IH in H as (now & j & -> & Hj). exists now, j. split; [done|lia].
Qed.

Lemma qaItems_from_NoDup clock t index items :
  List.NoDup (map QaItem.id (qaItems_from clock t index items)).
Proof.
  revert t index. induction items as [|x rest IH]; intros t index; simpl.
  - constructor.
  - constructor; [|apply IH].
    intros H. apply qaItems_from_ids in H as (now & j & Heq & Hj).
    apply item_id_index in Heq. lia.
Qed.

Lemma qaItems_from_not_container clock t index items (now : Z) :
  ~ In ("qa-" +:+ pretty now) (map QaItem.id (qaItems_from clock t index items)).
Proof.
  intros H. apply qaItems_from_ids in H as (now' & j & Heq & _).
  by apply container_id_not_item_id in Heq.
Qed.

(** The scenario of the specification: [budget.xlsx] with one pair gives
    four new entries. *)
Example uploadFile_budget :
  messages
    (snd (uploadFile
            (Resolved (UploadData.mk "success"
               (Some [UploadItem.mk "Q1 spend?" "$10k" (Some "sheet1")]) None))
            (mkWorld [] "" false (Some (File.mk "budget.xlsx" "")) ∅
               running_clock 0 [])))
  = [Msg.plain "Uploading and processing budget.xlsx..." true;
     Msg.with_id "file-1700000000002"
       "File processed successfully! Here are the responses to your questions:";
     Msg.mk (Some "qa-1700000000000") None false true
       (Some [QaItem.mk "qa-item-1700000000001-0" "Q1 spend?" "$10k" "sheet1"])
       false false None None;
     download_message].
Proof. reflexivity. Qed.

(** C3: for a successful [/upload] response with N pairs, the handler
    appends a confirmation, then one QA container with exactly N items, item
    [i] holding the question and the response of pair [i], the ids of the
    items distinct from one another and from the id of the container, and
    then exactly one download prompt. *)
Theorem uploadFile_success_items (w : world) (items : list UploadItem.t)
    (message : option string) :
  exists confirmation qaMessage qaItems parentId w',
    uploadFile_resume
      (Resolved (UploadData.mk "success" (Some items) message)) w
      = (Normal tt, w')
    /\ messages w' = messages w ++ [confirmation; qaMessage; download_message]
    /\ Msg.downloadOnly confirmation = false
    /\ Msg.isQAContainer confirmation = false
    /\ Msg.downloadOnly qaMessage = false
    /\ Msg.isQAContainer qaMessage = true
    /\ Msg.id qaMessage = Some parentId
    /\ Msg.qaItems qaMessage = Some qaItems
    /\ length qaItems = length items
    /\ (forall (i : nat) item, items !! i = Some item ->
          exists q, qaItems !! i = Some q
                    /\ QaItem.question q = UploadItem.question item
                    /\ QaItem.answer q = UploadItem.response item)
    /\ List.NoDup (parentId :: map QaItem.id qaItems)
    /\ Msg.downloadOnly download_message = true
    /\ Msg.qaItems download_message = None.
Proof.
  unfold uploadFile_resume. run_monad.
  rewrite map_qaItems_run. cbn -[pretty].
  do 5 eexists. split; [reflexivity|]. cbn -[pretty].
  rewrite <- !app_assoc.
  split; [reflexivity|].
  repeat (split; [reflexivity|]).
  split; [apply qaItems_from_length|].
  split.
  { intros i item Hi. eexists. split; [by apply qaItems_from_lookup|]. done. }
  split; [|done].
  constructor; [apply qaItems_from_not_container | apply qaItems_from_NoDup].
Qed.

(** C5, amended: when the handling of the [/upload] answer reaches the end
    of the [try] block (a success status with its array, or any other
    status) the selected file is cleared; when the attempt ends in the
    [catch] block (the request is rejected, or reading the answer throws)
    the selected file is left as it was.  In every case the handler
    completes normally and [isProcessing] is [false]. *)
Theorem uploadFile_selected_file_after (r : axios_result UploadData.t)
    (w : world) :
  exists w',
    uploadFile_resume r w = (Normal tt, w')
    /\ isProcessing w' = false
    /\ selectedFile w' =
         match r with
         | Resolved data =>
             if upload_handled data then None else selectedFile w
         | Rejected _ => selectedFile w
         end.
Proof.
  destruct r as [[status responses message]|e];
    unfold uploadFile_resume, upload_handled; run_monad;
    try (eexists; repeat split; reflexivity).
  destruct (String.eqb status "success"); cbn -[pretty];
    [destruct responses as [items|]; cbn -[pretty];
       [rewrite map_qaItems_run; cbn -[pretty]|]|];
    eexists; repeat split; reflexivity.
Qed.

(** ** FeedbackPanel and handleFeedbackSubmit *)

Lemma find_message_Some (msgs : list Msg.t) (messageId : string) (m : Msg.t) :
  find_message msgs messageId = Some m ->
  In m msgs /\ Msg.id m = Some messageId.
Proof.
  unfold find_message. intros H. apply find_some in H as [Hin Hid].
  split; [exact Hin|]. by apply bool_decide_eq_true in Hid.
Qed.

Lemma find_message_None (msgs : list Msg.t) (messageId : string) :
  find_message msgs messageId = None <->
  forall m, In m msgs -> Msg.id m <> Some messageId.
Proof.
  unfold find_message. split.
  - intros H m Hin Hid.
    pose proof (find_none _ _ H m Hin) as Hb. cbn in Hb.
    apply bool_decide_eq_false in Hb. contradiction.
  - intros H. induction msgs as [|m rest IH]; [reflexivity|].
    cbn. rewrite bool_decide_eq_false_2 by (apply H; by left).
    apply IH. intros m' Hin. apply H. by right.
Qed.


(** When the loop finds nothing, no item of a QA container has the id. *)
Lemma find_qa_item_None (msgs : list Msg.t) (messageId : string) :
  find_qa_item msgs messageId = None <->
  forall msg items qaItem,
    In msg msgs -> Msg.isQAContainer msg = true ->
    Msg.qaItems msg = Some items -> In qaItem items ->
    QaItem.id qaItem <> messageId.
Proof.
  induction msgs as [|msg rest IH]; cbn [find_qa_item].
  - split; [intros _ ? ? ? []|reflexivity].
  - destruct (Msg.isQAContainer msg) eqn:Hc;
      [destruct (Msg.qaItems msg) as [items|] eqn:Hq;
         [destruct (List.find _ items) as [found|] eqn:Hf|]|].
    + split; [discriminate|]. intros H. exfalso.
      apply find_some in Hf as [Hin Hid]. apply String.eqb_eq in Hid.
      apply (H msg items found); auto. by left.
    + rewrite IH. split.
      * intros H m l q [<-|Hin] Hm Hl Hq'.
        -- assert (l = items) as -> by congruence.
           pose proof (find_none _ _ Hf q Hq') as Hb. cbn in Hb.
           by apply String.eqb_neq in Hb.
        -- eauto.
      * intros H m l q Hin. apply H. by right.
    + rewrite IH. split.
      * intros H m l q [<-|Hin] Hm Hl Hq'; [congruence|eauto].
      * intros H m l q Hin. apply H. by right.
    + rewrite IH. split.
      * intros H m l q [<-|Hin] Hm Hl Hq'; [congruence|eauto].
      * intros H m l q Hin. apply H. by right.
Qed.

(** The first half of the handler when the id resolves through a QA item
    that has a question or an answer. *)
Lemma handleFeedbackSubmit_begin_item (feedbackData : FeedbackData.t)
    (w : world) (qaItem : QaItem.t) :
  find_message (messages w) (FeedbackData.messageId feedbackData) = None ->
  find_qa_item (messages w) (FeedbackData.messageId feedbackData)
    = Some qaItem ->
  JsString.truthy (QaItem.question qaItem)
    || JsString.truthy (QaItem.answer qaItem) = true ->
  handleFeedbackSubmit_begin feedbackData w =
    (Normal true,
     mkWorld (messages w) (input w) (isProcessing w) (selectedFile w)
       (feedbackVisibility w) (clock w) (ticks w)
       (log w ++ [ConsoleLog "Sending feedback data:";
                  AxiosPost (API_BASE_URL +:+ "/feedback")
                    (FeedbackBody
                       (CompleteData.mk feedbackData
                          (QaItem.question qaItem) (QaItem.answer qaItem)
                          []))])).
Proof.
  intros Hm Hq Ht. unfold handleFeedbackSubmit_begin, resolve.
  unfold bind at 1. unfold gets. rewrite Hm, Hq.
  apply orb_true_iff in Ht.
  destruct (JsString.truthy (QaItem.question qaItem)),
    (JsString.truthy (QaItem.answer qaItem)); try (destruct Ht; discriminate);
    run_monad; rewrite <- app_assoc; reflexivity.
Qed.

(** The first half of the handler when the search leaves [originalQuery]
    and [originalAnswer] empty and [message] undefined. *)
Lemma handleFeedbackSubmit_begin_abort (feedbackData : FeedbackData.t)
    (w : world) :
  resolve (messages w) (FeedbackData.messageId feedbackData) = (None, "", "") ->
  handleFeedbackSubmit_begin feedbackData w =
    (Normal false,
     mkWorld (messages w) (input w) (isProcessing w) (selectedFile w)
       (feedbackVisibility w) (clock w) (ticks w)
       (log w ++ [ConsoleError "Could not find message or QA item for feedback";
                  Alert "Error processing feedback. Please try again."])).
Proof.
  intros H. unfold handleFeedbackSubmit_begin.
  unfold bind at 1. unfold gets. rewrite H.
  run_monad. rewrite <- app_assoc. reflexivity.
Qed.

(** The second half of the handler, case by case: it sends nothing. *)
Lemma handleFeedbackSubmit_resume_cases (feedbackData : FeedbackData.t)
    (r : axios_result FeedbackResp.t) (w : world) :
  exists evs visibility,
    handleFeedbackSubmit_resume feedbackData r w =
      (Normal tt,
       mkWorld (messages w) (input w) (isProcessing w) (selectedFile w)
         visibility (clock w) (ticks w) (log w ++ evs))
    /\ forallb (fun e => negb (is_request e)) evs = true.
Proof.
  destruct r as [[status]|e]; unfold handleFeedbackSubmit_resume; run_monad.
  - destruct (String.eqb status "success"); cbn.
    + exists [Alert "Thank you for your feedback!"]. eexists.
      split; reflexivity.
    + exists [], (feedbackVisibility w). rewrite app_nil_r.
      split; [by destruct w|reflexivity].
  - eexists [_; _], _. rewrite <- app_assoc. split; reflexivity.
Qed.

Lemma new_events_app (w w' : world) (evs : list event) :
  log w' = log w ++ evs -> new_events w w' = evs.
Proof. unfold new_events. intros ->. apply drop_app_length. Qed.

Lemma truthy_false (s : string) : JsString.truthy s = false -> s = "".
Proof.
  unfold JsString.truthy. rewrite negb_false_iff. apply String.eqb_eq.
Qed.

(** C6: when the edited answer trims to empty, [handleSubmit] sets the
    panel's error text and does not call [onFeedbackSubmit]: the click
    leaves the coordinator's state as it was, the log of requests and
    [feedbackVisibility] included. *)
Theorem empty_feedback_rejected_locally (messageId : string)
    (p : FeedbackPanel.state) (r : axios_result FeedbackResp.t) (w : world) :
  JsString.trim (FeedbackPanel.editedAnswer p) = "" ->
  FeedbackPanel.handleSubmit messageId p =
    (FeedbackPanel.mk (FeedbackPanel.editedAnswer p)
       "Please enter at least one word before submitting.", None)
  /\ exists p' w',
       submit_panel messageId p r w = (Normal p', w')
       /\ FeedbackPanel.error p' =
            "Please enter at least one word before submitting."
       /\ new_events w w' = []
       /\ feedbackVisibility w' = feedbackVisibility w
       /\ w' = w.
Proof.
  intros H.
  assert (FeedbackPanel.handleSubmit messageId p =
            (FeedbackPanel.mk (FeedbackPanel.editedAnswer p)
               "Please enter at least one word before submitting.", None))
    as E by (unfold FeedbackPanel.handleSubmit; by rewrite H).
  split; [exact E|].
  unfold submit_panel. rewrite E. do 2 eexists.
  split; [reflexivity|]. repeat split.
  apply new_events_app. by rewrite app_nil_r.
Qed.

Lemma empty_feedback_rejected_locally_witness :
  exists p',
    submit_panel "qa-item-1700000000001-0" (FeedbackPanel.mk "   " "")
      feedback_success
      (form_open "qa-item-1700000000001-0"
         (after_upload [UploadItem.mk "Q1 spend?" "$10k" (Some "sheet1")]))
    = (Normal p',
       form_open "qa-item-1700000000001-0"
         (after_upload [UploadItem.mk "Q1 spend?" "$10k" (Some "sheet1")])).
Proof.
  destruct (empty_feedback_rejected_locally "qa-item-1700000000001-0"
              (FeedbackPanel.mk "   " "") feedback_success
              (form_open "qa-item-1700000000001-0"
                 (after_upload
                    [UploadItem.mk "Q1 spend?" "$10k" (Some "sheet1")]))
              eq_refl) as (_ & p' & w' & E & _ & _ & _ & ->).
  exists p'. exact E.
Defined.




(** C8: when the id is the id of no message of the flat list and of no item
    of a QA container, the handler reports that it could not find the
    message, alerts the user and returns: nothing is sent, and the messages
    and [feedbackVisibility] are as they were. *)
Theorem feedback_unresolved_aborts (feedbackData : FeedbackData.t)
    (r : axios_result FeedbackResp.t) (w : world) :
  find_message (messages w) (FeedbackData.messageId feedbackData) = None ->
  find_qa_item (messages w) (FeedbackData.messageId feedbackData) = None ->
  exists w',
    handleFeedbackSubmit feedbackData r w = (Normal tt, w')
    /\ new_events w w' =
         [ConsoleError "Could not find message or QA item for feedback";
          Alert "Error processing feedback. Please try again."]
    /\ forallb (fun e => negb (is_request e)) (new_events w w') = true
    /\ messages w' = messages w
    /\ feedbackVisibility w' = feedbackVisibility w.
Proof.
  intros Hm Hq.
  assert (resolve (messages w) (FeedbackData.messageId feedbackData)
          = (None, "", "")) as Hr by (unfold resolve; by rewrite Hm, Hq).
  unfold handleFeedbackSubmit. unfold bind at 1.
  rewrite (handleFeedbackSubmit_begin_abort _ _ Hr). unfold ret.
  eexists. split; [reflexivity|].
  assert (forall evs w1 w2, log w2 = log w1 ++ evs -> new_events w1 w2 = evs)
    as Hn by (intros; by apply new_events_app).
  rewrite (Hn [ConsoleError "Could not find message or QA item for feedback";
               Alert "Error processing feedback. Please try again."])
    by reflexivity.
  repeat split.
Qed.

Lemma feedback_unresolved_aborts_witness :
  exists w',
    handleFeedbackSubmit (correction "qa-item-1700000000001-7")
      feedback_success
      (after_upload [UploadItem.mk "Q1 spend?" "$10k" (Some "sheet1")])
    = (Normal tt, w')
    /\ forallb (fun e => negb (is_request e))
         (new_events
            (after_upload [UploadItem.mk "Q1 spend?" "$10k" (Some "sheet1")])
            w') = true.
Proof.
  destruct (feedback_unresolved_aborts (correction "qa-item-1700000000001-7")
              feedback_success
              (after_upload [UploadItem.mk "Q1 spend?" "$10k" (Some "sheet1")])
              eq_refl eq_refl)
    as (w' & E & _ & Hreq & _).
  exists w'. split; [exact E | exact Hreq].
Defined.

Lemma filter_no_request (evs : list event) :
  forallb (fun e => negb (is_request e)) evs = true ->
  List.filter is_request evs = [].
Proof.
  induction evs as [|e evs IH]; [done|]. cbn.
  intros [He Hevs]%andb_true_iff. apply negb_true_iff in He.
  rewrite He. by apply IH.
Qed.

(** C10: when the id matches no message of the flat list, every request the
    handler sends to [/feedback] carries the empty list as [context_used],
    whatever the items of the QA containers are; and when the id is found
    among the QA items, in an item that has a question or an answer, the
    handler does send the request, exactly one, with that item's question and
    answer and with the empty list as [context_used], whatever the outcome
    of the request is. *)
Theorem qa_feedback_context_empty (feedbackData : FeedbackData.t)
    (r : axios_result FeedbackResp.t) (w : world) :
  find_message (messages w) (FeedbackData.messageId feedbackData) = None ->
  exists w',
    handleFeedbackSubmit feedbackData r w = (Normal tt, w')
    /\ (forall url completeData,
          In (AxiosPost url (FeedbackBody completeData)) (new_events w w') ->
          CompleteData.context_used completeData = [])
    /\ (forall qaItem,
          find_qa_item (messages w) (FeedbackData.messageId feedbackData)
            = Some qaItem ->
          JsString.truthy (QaItem.question qaItem)
            || JsString.truthy (QaItem.answer qaItem) = true ->
          List.filter is_request (new_events w w') =
            [AxiosPost (API_BASE_URL +:+ "/feedback")
               (FeedbackBody
                  (CompleteData.mk feedbackData
                     (QaItem.question qaItem) (QaItem.answer qaItem) []))]).
Proof.
  intros Hm.
  destruct (find_qa_item (messages w) (FeedbackData.messageId feedbackData))
    as [qaItem|] eqn:Hq.
  - destruct (JsString.truthy (QaItem.question qaItem)
              || JsString.truthy (QaItem.answer qaItem)) eqn:Ht.
    + unfold handleFeedbackSubmit. unfold bind at 1.
      rewrite (handleFeedbackSubmit_begin_item _ _ _ Hm Hq Ht).
      match goal with
      | |- context [handleFeedbackSubmit_resume ?fd r ?w1] =>
          destruct (handleFeedbackSubmit_resume_cases fd r w1)
            as (evs & vis & E & Hevs)
      end.
      rewrite E. eexists. split; [reflexivity|].
      rewrite (new_events_app w _
                 ([ConsoleLog "Sending feedback data:";
                   AxiosPost (API_BASE_URL +:+ "/feedback")
                     (FeedbackBody
                        (CompleteData.mk feedbackData
                           (QaItem.question qaItem) (QaItem.answer qaItem)
                           []))] ++ evs))
        by (cbn; by rewrite <- app_assoc).
      split.
      * intros url completeData Hin.
        cbn in Hin. destruct Hin as [Hin|[Hin|Hin]]; [discriminate| |].
        -- by injection Hin as _ <-.
        -- rewrite forallb_forall in Hevs. apply Hevs in Hin. discriminate.
      * intros qaItem' [= <-] _. cbn [app List.filter is_request].
        by rewrite (filter_no_request _ Hevs).
    + apply orb_false_iff in Ht as [Ht1 Ht2].
      pose proof (truthy_false _ Ht1) as E1.
      pose proof (truthy_false _ Ht2) as E2.
      assert (resolve (messages w) (FeedbackData.messageId feedbackData)
              = (None, "", "")) as Hr
        by (unfold resolve; by rewrite Hm, Hq, E1, E2).
      unfold handleFeedbackSubmit. unfold bind at 1.
      rewrite (handleFeedbackSubmit_begin_abort _ _ Hr). unfold ret.
      eexists. split; [reflexivity|].
      rewrite (new_events_app w _
                 [ConsoleError "Could not find message or QA item for feedback";
                  Alert "Error processing feedback. Please try again."])
        by reflexivity.
      split.
      * intros url completeData Hin.
        cbn in Hin. destruct Hin as [Hin|[Hin|[]]]; discriminate.
      * intros qaItem' [= <-] Ht. rewrite Ht1, Ht2 in Ht. discriminate.
  - assert (resolve (messages w) (FeedbackData.messageId feedbackData)
            = (None, "", "")) as Hr by (unfold resolve; by rewrite Hm, Hq).
    unfold handleFeedbackSubmit. unfold bind at 1.
    rewrite (handleFeedbackSubmit_begin_abort _ _ Hr). unfold ret.
    eexists. split; [reflexivity|].
    rewrite (new_events_app w _
               [ConsoleError "Could not find message or QA item for feedback";
                Alert "Error processing feedback. Please try again."])
      by reflexivity.
    split.
    + intros url completeData Hin.
      cbn in Hin. destruct Hin as [Hin|[Hin|[]]]; discriminate.
    + intros qaItem' H. discriminate.
Qed.

(** The request is there: a suggestion on the item of an upload, rejected
    by the network. *)
Lemma qa_feedback_context_empty_witness :
  exists w',
    handleFeedbackSubmit (correction "qa-item-1700000000000-0")
      (Rejected network_error)
      (after_upload_frozen
         [UploadItem.mk "Q1 spend?" "$10k" (Some "sheet1")])
    = (Normal tt, w')
    /\ List.filter is_request
         (new_events
            (after_upload_frozen
               [UploadItem.mk "Q1 spend?" "$10k" (Some "sheet1")])
            w')
       = [AxiosPost (API_BASE_URL +:+ "/feedback")
            (FeedbackBody
               (CompleteData.mk (correction "qa-item-1700000000000-0")
                  "Q1 spend?" "$10k" []))].
Proof.
  destruct (qa_feedback_context_empty (correction "qa-item-1700000000000-0")
              (Rejected network_error)
              (after_upload_frozen
                 [UploadItem.mk "Q1 spend?" "$10k" (Some "sheet1")])
              eq_refl) as (w' & E & _ & Hsent).
  exists w'. split; [exact E|].
  exact (Hsent (QaItem.mk "qa-item-1700000000000-0" "Q1 spend?" "$10k"
                  "sheet1") eq_refl eq_refl).
Defined.

(** ** The extension of the file *)

Lemma accepted_extension_match_excel (name : string) :
  accepted_extension name = false -> JsString.match_excel name = false.
Proof.
  unfold accepted_extension, accept, JsString.match_excel. cbn [existsb].
  rewrite !orb_false_iff. intros (H1 & H2 & _). by rewrite H1, H2.
Qed.

(** The widget has no test of its own on the name: with [report.pdf]
    selected, [uploadFile] posts the file and appends its status message. *)
Lemma uploadFile_sends_report_pdf :
  accepted_extension (File.name report_pdf) = false
  /\ uploadFile_begin (selected report_pdf (initial_world frozen_clock)) =
       (Normal (Some report_pdf),
        mkWorld [Msg.plain "Uploading and processing report.pdf..." true]
          "" true (Some report_pdf) ∅ frozen_clock 0
          [AxiosPost "http://localhost:8000/upload" (UploadBody report_pdf)]).
Proof. split; reflexivity. Qed.

(** The static page takes neither [.pdf] nor [.csv], in any case of the
    letters. *)
Example match_excel_names :
  JsString.match_excel "report.pdf" = false
  /\ JsString.match_excel "data.csv" = false
  /\ JsString.match_excel "budget.xlsx" = true
  /\ JsString.match_excel "BUDGET.XLS" = true.
Proof. repeat split. Qed.

(** C4, amended: on the static page, for a file whose name does not end in
    one of the accepted extensions, [handleFile] returns before any request
    is made, leaves the chat container and the progress bar as they were,
    and shows exactly one notification, of type [error], whose text is
    ["Please upload an Excel file (.xlsx or .xls)"]. *)
Theorem handleFile_rejects_other_extensions (file : File.t)
    (p : Static.page) :
  accepted_extension (File.name file) = false ->
  Static.handleFile_begin file p =
    (Normal false,
     Static.mkPage (Static.chatContainer p)
       (Static.notifications p
          ++ [("Please upload an Excel file (.xlsx or .xls)", "error")])
       (Static.progressBar_hidden p) (Static.progress_width p)
       (Static.requests p)).
Proof.
  intros H. unfold Static.handleFile_begin.
  rewrite (accepted_extension_match_excel _ H). reflexivity.
Qed.

Lemma handleFile_rejects_other_extensions_witness :
  Static.handleFile_begin report_pdf (Static.mkPage [] [] true "0%" []) =
    (Normal false,
     Static.mkPage []
       [("Please upload an Excel file (.xlsx or .xls)", "error")]
       true "0%" []).
Proof.
  exact (handleFile_rejects_other_extensions report_pdf
           (Static.mkPage [] [] true "0%" []) eq_refl).
Defined.

(** ** The ids of a session *)

(** C9 at two answers that arrive while [Date.now()] reads the same
    millisecond: both assistant messages get the same id. *)
Theorem same_millisecond_same_id :
  session_ids (messages two_replies) = ["1700000000000"; "1700000000000"]
  /\ ~ List.NoDup (session_ids (messages two_replies)).
Proof.
  assert (session_ids (messages two_replies)
          = ["1700000000000"; "1700000000000"]) as E by reflexivity.
  split; [exact E|]. rewrite E. intros H.
  apply NoDup_cons_iff in H as [Hin _]. apply Hin. by left.
Qed.

(** * Further properties of the handlers *)

(** ** White space *)

Lemma trim_start_blank (s : string) :
  blank s = true -> JsString.trim_start s = "".
Proof.
  induction s as [|c s IH]; [done|]. unfold blank. cbn.
  intros [Hc Hs]%andb_true_iff. rewrite Hc. by apply IH.
Qed.

Lemma trim_start_head (s : string) :
  JsString.trim_start s = ""
  \/ exists c t, JsString.trim_start s = String c t
                 /\ JsString.is_white_space c = false.
Proof.
  induction s as [|c s IH]; [by left|]. cbn.
  destruct (JsString.is_white_space c) eqn:Hc; [exact IH|].
  right. by exists c, s.
Qed.

Lemma trim_start_empty (s : string) :
  JsString.trim_start s = "" -> blank s = true.
Proof.
  induction s as [|c s IH]; [done|]. unfold blank. cbn.
  destruct (JsString.is_white_space c); [exact IH|discriminate].
Qed.

Lemma trim_end_empty_head (c : ascii) (t : string) :
  JsString.is_white_space c = false -> JsString.trim_end (String c t) <> "".
Proof.
  intros Hc. cbn. rewrite Hc. by destruct (JsString.trim_end t).
Qed.

Lemma trim_empty_iff (s : string) : JsString.trim s = "" <-> blank s = true.
Proof.
  unfold JsString.trim. split.
  - intros H. destruct (trim_start_head s) as [E|(c & t & E & Hc)].
    + by apply trim_start_empty.
    + rewrite E in H. by apply trim_end_empty_head in H.
  - intros H. by rewrite (trim_start_blank _ H).
Qed.

(** X1: [sendMessage] leaves everything as it was, and sends nothing,
    exactly when the input consists of white space only (the empty input
    included). *)
Theorem sendMessage_noop_iff_blank (r : axios_result ChatData.t) (w : world) :
  sendMessage r w = (Normal tt, w) <-> blank (input w) = true.
Proof.
  rewrite <- trim_empty_iff. split.
  - intros H.
    destruct (JsString.truthy (JsString.trim (input w))) eqn:Ht;
      [|by apply truthy_false].
    exfalso. unfold sendMessage, bind in H.
    rewrite (sendMessage_begin_nonempty w Ht) in H.
    match type of H with
    | sendMessage_resume ?u r ?w1 = _ =>
        destruct (sendMessage_resume_cases u r w1) as (a & n & E & _)
    end.
    rewrite E in H. injection H as H.
    apply (f_equal messages) in H. cbn in H.
    apply (f_equal length) in H. rewrite !length_app in H. cbn in H. lia.
  - intros H. unfold sendMessage, bind.
    by rewrite (sendMessage_blank w H).
Qed.

(** ** Resolving the target of a suggestion *)

Lemma find_message_app_Some (msgs more : list Msg.t) (id : string) (m : Msg.t) :
  find_message msgs id = Some m -> find_message (msgs ++ more) id = Some m.
Proof.
  unfold find_message. induction msgs as [|x msgs IH]; [discriminate|].
  cbn. destruct (bool_decide (Msg.id x = Some id)); [done|exact IH].
Qed.

Lemma find_message_app_None (msgs more : list Msg.t) (id : string) :
  find_message msgs id = None ->
  find_message (msgs ++ more) id = find_message more id.
Proof.
  unfold find_message. induction msgs as [|x msgs IH]; [done|].
  cbn. destruct (bool_decide (Msg.id x = Some id)); [discriminate|exact IH].
Qed.

Lemma find_qa_item_app_Some (msgs more : list Msg.t) (id : string)
    (q : QaItem.t) :
  find_qa_item msgs id = Some q -> find_qa_item (msgs ++ more) id = Some q.
Proof.
  induction msgs as [|x msgs IH]; [discriminate|].
  cbn [find_qa_item app].
  destruct (Msg.isQAContainer x); [|exact IH].
  destruct (Msg.qaItems x) as [items|]; [|exact IH].
  destruct (List.find _ items); [done|exact IH].
Qed.

Lemma or_else_truthy (a : option string) (b : string) :
  JsString.truthy b = true -> JsString.truthy (JsString.or_else a b) = true.
Proof.
  intros Hb. destruct a as [s|]; cbn; [|exact Hb].
  destruct (JsString.truthy s) eqn:Hs; [exact Hs|exact Hb].
Qed.

Lemma or_else_empty (a : option string) :
  JsString.or_else (Some (JsString.or_else a "")) "" = JsString.or_else a "".
Proof.
  destruct a as [s|]; cbn; [|done].
  destruct (JsString.truthy s) eqn:Hs; cbn; by rewrite ?Hs.
Qed.

(** The first half of the handler when the id is found in the flat list. *)
Lemma handleFeedbackSubmit_begin_flat (feedbackData : FeedbackData.t)
    (m : Msg.t) (w : world) :
  find_message (messages w) (FeedbackData.messageId feedbackData) = Some m ->
  handleFeedbackSubmit_begin feedbackData w =
    (Normal true,
     mkWorld (messages w) (input w) (isProcessing w) (selectedFile w)
       (feedbackVisibility w) (clock w) (ticks w)
       (log w ++ [ConsoleLog "Sending feedback data:";
                  AxiosPost (API_BASE_URL +:+ "/feedback")
                    (FeedbackBody
                       (CompleteData.mk feedbackData
                          (JsString.or_else (Msg.question m)
                             (JsString.or_else (Msg.text m) ""))
                          (JsString.or_else (Msg.text m) "")
                          (default [] (Msg.context m))))])).
Proof.
  intros Hm. unfold handleFeedbackSubmit_begin, resolve.
  unfold bind at 1. unfold gets. rewrite Hm.
  rewrite bool_decide_eq_true_2 by eauto.
  rewrite !andb_false_r. run_monad. by rewrite <- app_assoc.
Qed.

(** X2: a suggestion whose id is the id of a message of the flat list is
    always sent, whatever the texts of the message are: the request carries
    [question || text || ""] as the original query, [text || ""] as the
    original answer and the message's context (or the empty list), and
    nothing is changed but the log. *)
Theorem feedback_flat_always_sent (feedbackData : FeedbackData.t)
    (m : Msg.t) (w : world) :
  find_message (messages w) (FeedbackData.messageId feedbackData) = Some m ->
  exists w',
    handleFeedbackSubmit_begin feedbackData w = (Normal true, w')
    /\ new_events w w' =
         [ConsoleLog "Sending feedback data:";
          AxiosPost (API_BASE_URL +:+ "/feedback")
            (FeedbackBody
               (CompleteData.mk feedbackData
                  (JsString.or_else (Msg.question m)
                     (JsString.or_else (Msg.text m) ""))
                  (JsString.or_else (Msg.text m) "")
                  (default [] (Msg.context m))))]
    /\ messages w' = messages w
    /\ feedbackVisibility w' = feedbackVisibility w.
Proof.
  intros Hm. rewrite (handleFeedbackSubmit_begin_flat _ _ _ Hm).
  eexists. split; [reflexivity|]. split; [by apply new_events_app|done].
Qed.

Lemma feedback_flat_always_sent_witness :
  exists w',
    handleFeedbackSubmit_begin (correction "file-1700000000002")
      (after_upload [UploadItem.mk "Q1 spend?" "$10k" (Some "sheet1")])
    = (Normal true, w')
    /\ new_events
         (after_upload [UploadItem.mk "Q1 spend?" "$10k" (Some "sheet1")]) w'
       = [ConsoleLog "Sending feedback data:";
          AxiosPost (API_BASE_URL +:+ "/feedback")
            (FeedbackBody
               (CompleteData.mk (correction "file-1700000000002")
                  "File processed successfully! Here are the responses to your questions:"
                  "File processed successfully! Here are the responses to your questions:"
                  []))].
Proof.
  destruct (feedback_flat_always_sent (correction "file-1700000000002")
              (Msg.with_id "file-1700000000002"
                 "File processed successfully! Here are the responses to your questions:")
              (after_upload [UploadItem.mk "Q1 spend?" "$10k" (Some "sheet1")])
              eq_refl) as (w' & E & Hev & _).
  exists w'. split; [exact E | exact Hev].
Defined.

(** X3: what an id resolves to does not change when messages are appended.
    An id found in the flat list keeps resolving to the first message that
    carries it; an id found among the QA items keeps resolving to the same
    item as long as no message of the flat list takes that id. *)
Theorem resolve_stable (msgs more : list Msg.t) (id : string) :
  (forall m, find_message msgs id = Some m ->
     find_message (msgs ++ more) id = Some m
     /\ resolve (msgs ++ more) id = resolve msgs id)
  /\ (forall q, find_message (msgs ++ more) id = None ->
        find_qa_item msgs id = Some q ->
        find_qa_item (msgs ++ more) id = Some q
        /\ resolve (msgs ++ more) id = resolve msgs id).
Proof.
  split.
  - intros m Hm. pose proof (find_message_app_Some _ more _ _ Hm) as H.
    split; [exact H|]. unfold resolve. by rewrite H, Hm.
  - intros q Hnone Hq.
    pose proof (find_qa_item_app_Some _ more _ _ Hq) as H.
    split; [exact H|]. unfold resolve. rewrite Hnone, H, Hq.
    destruct (find_message msgs id) as [m|] eqn:Hm; [|done].
    apply (find_message_app_Some _ more) in Hm. congruence.
Qed.

Lemma resolve_stable_witness :
  resolve (messages two_replies) "1700000000000"
  = resolve
      (messages
         (snd (sendMessage (chat_reply "First answer")
                 (typed "First question" (initial_world frozen_clock)))))
      "1700000000000".
Proof.
  exact (proj2
           (proj1 (resolve_stable
                     (messages
                        (snd (sendMessage (chat_reply "First answer")
                                (typed "First question"
                                   (initial_world frozen_clock)))))
                     [Msg.plain "Second question" true;
                      Msg.mk (Some "1700000000000") (Some "Second answer")
                        false false None false false
                        (Some "Second question") (Some [])]
                     "1700000000000")
              _ eq_refl)).
Defined.

(** X4: a question, its answer, and a suggestion on that answer.  When the
    id the answer gets is not yet the id of a message, the request to
    [/feedback] carries the trimmed question as the original query, the text
    shown as the original answer, and the context of the answer (the empty
    list when the answer has none). *)
Theorem send_then_feedback (data : ChatData.t) (feedbackData : FeedbackData.t)
    (w : world) :
  JsString.truthy (JsString.trim (input w)) = true ->
  find_message (messages w) (pretty (clock w (ticks w))) = None ->
  FeedbackData.messageId feedbackData = pretty (clock w (ticks w)) ->
  exists w1 w2,
    sendMessage (Resolved data) w = (Normal tt, w1)
    /\ handleFeedbackSubmit_begin feedbackData w1 = (Normal true, w2)
    /\ new_events w1 w2 =
         [ConsoleLog "Sending feedback data:";
          AxiosPost (API_BASE_URL +:+ "/feedback")
            (FeedbackBody
               (CompleteData.mk feedbackData
                  (JsString.trim (input w))
                  (JsString.or_else (ChatData.response data)
                     "I couldn't process that request.")
                  (default [] (ChatData.context data))))].
Proof.
  intros Ht Hfresh Hid.
  set (answer :=
         Msg.mk (Some (pretty (clock w (ticks w))))
           (Some (JsString.or_else (ChatData.response data)
                    "I couldn't process that request."))
           false false None false false
           (Some (JsString.trim (input w)))
           (Some (default [] (ChatData.context data)))).
  assert (find_message
            ((messages w ++ [Msg.plain (JsString.trim (input w)) true])
               ++ [answer])
            (FeedbackData.messageId feedbackData) = Some answer) as Hfind.
  { rewrite <- app_assoc, Hid, find_message_app_None by exact Hfresh.
    unfold find_message. cbn -[pretty].
    rewrite bool_decide_eq_false_2 by discriminate.
    by rewrite bool_decide_eq_true_2. }
  eexists. eexists. split.
  { unfold sendMessage, bind. rewrite (sendMessage_begin_nonempty w Ht).
    unfold sendMessage_resume. run_monad. reflexivity. }
  split.
  - apply (handleFeedbackSubmit_begin_flat feedbackData answer). exact Hfind.
  - apply new_events_app. cbn -[pretty]. do 4 f_equal.
    assert (JsString.truthy
              (JsString.or_else (ChatData.response data)
                 "I couldn't process that request.") = true) as Hd
      by by apply or_else_truthy.
    by rewrite Ht, Hd.
Qed.

Lemma send_then_feedback_witness :
  exists w1 w2,
    sendMessage (chat_reply "On track")
      (typed " What is the project status? " (initial_world running_clock))
    = (Normal tt, w1)
    /\ handleFeedbackSubmit_begin (correction "1700000000000") w1
       = (Normal true, w2)
    /\ new_events w1 w2 =
         [ConsoleLog "Sending feedback data:";
          AxiosPost (API_BASE_URL +:+ "/feedback")
            (FeedbackBody
               (CompleteData.mk (correction "1700000000000")
                  "What is the project status?" "On track" []))].
Proof.
  exact (send_then_feedback (ChatData.mk (Some "On track") None)
           (correction "1700000000000")
           (typed " What is the project status? " (initial_world running_clock))
           eq_refl eq_refl eq_refl).
Defined.

(** ** What a suggestion changes *)

Lemma handleFeedbackSubmit_begin_cases (feedbackData : FeedbackData.t)
    (w : world) :
  exists sent evs,
    handleFeedbackSubmit_begin feedbackData w =
      (Normal sent,
       mkWorld (messages w) (input w) (isProcessing w) (selectedFile w)
         (feedbackVisibility w) (clock w) (ticks w) (log w ++ evs)).
Proof.
  unfold handleFeedbackSubmit_begin. unfold bind at 1. unfold gets.
  destruct (resolve _ _) as [[message originalQuery] originalAnswer].
  destruct (_ && _); run_monad; rewrite <- app_assoc; eauto.
Qed.

(** X5: [handleFeedbackSubmit] completes normally on every outcome and
    changes nothing of the state but [feedbackVisibility]; and it changes
    [feedbackVisibility] only when the request was answered with status
    ["success"], by setting the flag of the submitted id to [false].  A
    rejection, or an answer with another status, leaves the form as it
    was. *)
Theorem feedback_changes_only_visibility (feedbackData : FeedbackData.t)
    (r : axios_result FeedbackResp.t) (w : world) :
  exists w',
    handleFeedbackSubmit feedbackData r w = (Normal tt, w')
    /\ messages w' = messages w
    /\ input w' = input w
    /\ isProcessing w' = isProcessing w
    /\ selectedFile w' = selectedFile w
    /\ ticks w' = ticks w
    /\ (feedbackVisibility w' = feedbackVisibility w
        \/ r = Resolved (FeedbackResp.mk "success")
           /\ feedbackVisibility w' =
                <[FeedbackData.messageId feedbackData := false]>
                  (feedbackVisibility w)).
Proof.
  unfold handleFeedbackSubmit. unfold bind at 1.
  destruct (handleFeedbackSubmit_begin_cases feedbackData w)
    as ([|] & evs & ->).
  - destruct r as [[status]|e]; unfold handleFeedbackSubmit_resume; run_monad.
    + destruct (String.eqb_spec status "success") as [->|Hne]; cbn.
      * eexists. repeat (split; [reflexivity|]). right. by split.
      * eexists. repeat (split; [reflexivity|]). by left.
    + eexists. repeat (split; [reflexivity|]). by left.
  - unfold ret. eexists. repeat (split; [reflexivity|]). by left.
Qed.

(** The handler when the request is rejected. *)
Lemma handleFeedbackSubmit_rejected (feedbackData : FeedbackData.t)
    (e : js_error) (w : world) :
  exists w',
    handleFeedbackSubmit feedbackData (Rejected e) w = (Normal tt, w')
    /\ messages w' = messages w
    /\ feedbackVisibility w' = feedbackVisibility w.
Proof.
  unfold handleFeedbackSubmit. unfold bind at 1.
  destruct (handleFeedbackSubmit_begin_cases feedbackData w)
    as ([|] & evs & ->).
  - unfold handleFeedbackSubmit_resume. run_monad. eauto.
  - unfold ret. eauto.
Qed.

(** X6: a click on the panel's submit button with a text that does not trim
    to empty hands the text to the coordinator as typed (not trimmed), as a
    ["correction"] with both ratings 5, and empties the panel at once: when
    the request then fails the form is still open, and the text is gone. *)
Theorem submit_panel_clears_text (messageId : string)
    (p : FeedbackPanel.state) (e : js_error) (w : world) :
  JsString.truthy (JsString.trim (FeedbackPanel.editedAnswer p)) = true ->
  FeedbackPanel.handleSubmit messageId p =
    (FeedbackPanel.mk "" "",
     Some (FeedbackData.mk messageId "correction"
             (FeedbackPanel.editedAnswer p) 5 5))
  /\ exists w',
       submit_panel messageId p (Rejected e) w
       = (Normal (FeedbackPanel.mk "" ""), w')
       /\ feedbackVisibility w' = feedbackVisibility w
       /\ messages w' = messages w.
Proof.
  intros Ht.
  assert (FeedbackPanel.handleSubmit messageId p =
            (FeedbackPanel.mk "" "",
             Some (FeedbackData.mk messageId "correction"
                     (FeedbackPanel.editedAnswer p) 5 5))) as E
    by (unfold FeedbackPanel.handleSubmit; by rewrite Ht).
  split; [exact E|].
  unfold submit_panel. rewrite E. unfold bind at 1.
  destruct (handleFeedbackSubmit_rejected
              (FeedbackData.mk messageId "correction"
                 (FeedbackPanel.editedAnswer p) 5 5) e w)
    as (w' & -> & Hm & Hv).
  exists w'. unfold ret. auto.
Qed.

Lemma submit_panel_clears_text_witness :
  exists w',
    submit_panel "qa-item-1700000000001-0"
      (FeedbackPanel.mk " $12k, see sheet2 " "") (Rejected network_error)
      (form_open "qa-item-1700000000001-0"
         (after_upload [UploadItem.mk "Q1 spend?" "$10k" (Some "sheet1")]))
    = (Normal (FeedbackPanel.mk "" ""), w')
    /\ feedbackVisibility w' =
         feedbackVisibility
           (form_open "qa-item-1700000000001-0"
              (after_upload
                 [UploadItem.mk "Q1 spend?" "$10k" (Some "sheet1")])).
Proof.
  destruct (submit_panel_clears_text "qa-item-1700000000001-0"
              (FeedbackPanel.mk " $12k, see sheet2 " "") network_error
              (form_open "qa-item-1700000000001-0"
                 (after_upload
                    [UploadItem.mk "Q1 spend?" "$10k" (Some "sheet1")]))
              eq_refl) as (_ & w' & E & Hv & _).
  exists w'. split; [exact E | exact Hv].
Defined.

(** X7: the visibility of the suggestion forms.  A click on the toggle of
    an item flips the form of that id and of no other; two clicks bring
    every form back to what it was (a key that was missing ends as [false],
    which shows the same); [handleCancelFeedback] hides the form, and the
    toggle of a regular message shows it, whatever it was. *)
Theorem toggle_feedback_visibility (messageId : string) (w : world) :
  panel_visible (snd (toggleFeedback messageId w)) messageId
    = negb (panel_visible w messageId)
  /\ (forall other, other <> messageId ->
        panel_visible (snd (toggleFeedback messageId w)) other
        = panel_visible w other)
  /\ (forall any,
        panel_visible
          (snd (toggleFeedback messageId (snd (toggleFeedback messageId w))))
          any
        = panel_visible w any)
  /\ panel_visible (snd (handleCancelFeedback messageId w)) messageId = false
  /\ panel_visible (snd (openFeedback messageId w)) messageId = true.
Proof.
  unfold panel_visible, toggleFeedback, handleCancelFeedback, openFeedback.
  cbn. repeat split.
  - by rewrite lookup_insert_eq.
  - intros other Hne. by rewrite lookup_insert_ne.
  - intros any. destruct (decide (messageId = any)) as [->|Hne].
    + rewrite !lookup_insert_eq. cbn. apply negb_involutive.
    + by rewrite !lookup_insert_ne.
  - by rewrite lookup_insert_eq.
  - by rewrite lookup_insert_eq.
Qed.

(** ** uploadFile, the other outcomes *)

Lemma uploadFile_begin_selected (file : File.t) (w : world) :
  selectedFile w = Some file ->
  uploadFile_begin w =
    (Normal (Some file),
     mkWorld
       (messages w ++ [Msg.plain ("Uploading and processing "
                                    +:+ File.name file +:+ "...") true])
       (input w) true (Some file) (feedbackVisibility w) (clock w) (ticks w)
       (log w ++ [AxiosPost (API_BASE_URL +:+ "/upload") (UploadBody file)])).
Proof.
  intros H. unfold uploadFile_begin. unfold bind at 1. unfold gets.
  rewrite H. run_monad. by rewrite H.
Qed.

Lemma uploadFile_resume_grows (r : axios_result UploadData.t) (w : world) :
  exists w' m new,
    uploadFile_resume r w = (Normal tt, w')
    /\ messages w' = messages w ++ m :: new.
Proof.
  destruct r as [[status responses message]|e];
    unfold uploadFile_resume; run_monad.
  - destruct (String.eqb status "success"); cbn -[pretty];
      [destruct responses as [items|]; cbn -[pretty];
         [rewrite map_qaItems_run; cbn -[pretty]|]|];
      rewrite <- ?app_assoc; do 3 eexists; split; reflexivity.
  - do 3 eexists; split; reflexivity.
Qed.

(** X8: [uploadFile] leaves everything as it was, and sends nothing,
    exactly when no file is selected. *)
Theorem uploadFile_noop_iff_no_file (r : axios_result UploadData.t)
    (w : world) :
  uploadFile r w = (Normal tt, w) <-> selectedFile w = None.
Proof.
  split.
  - intros H. destruct (selectedFile w) as [file|] eqn:Hf; [|done].
    exfalso. unfold uploadFile, bind in H.
    rewrite (uploadFile_begin_selected file w Hf) in H.
    match type of H with
    | uploadFile_resume r ?w1 = _ =>
        destruct (uploadFile_resume_grows r w1) as (w' & m & new & E & Hm)
    end.
    rewrite E in H. injection H as ->.
    cbn in Hm. apply (f_equal length) in Hm.
    rewrite !length_app in Hm. cbn in Hm. lia.
  - intros H. unfold uploadFile, bind, uploadFile_begin, bind, gets.
    by rewrite H.
Qed.

(** X9: when the request is rejected, or answered with a status other than
    ["success"], [uploadFile] appends exactly one assistant message without
    id and no QA container: the fixed text for a rejection, the server's
    [message] for another status, or ["File processed with some issues."]
    when the answer has no message or an empty one.  The ids of the session
    are what they were. *)
Theorem uploadFile_failure_one_message (r : axios_result UploadData.t)
    (w : world) :
  match r with
  | Resolved data => String.eqb (UploadData.status data) "success" = false
  | Rejected _ => True
  end ->
  exists w',
    uploadFile_resume r w = (Normal tt, w')
    /\ messages w' =
         messages w ++ [
           Msg.plain
             match r with
             | Resolved data =>
                 JsString.or_else (UploadData.message data)
                   "File processed with some issues."
             | Rejected _ => "Error processing the file. Please try again."
             end false]
    /\ session_ids (messages w') = session_ids (messages w)
    /\ ticks w' = ticks w.
Proof.
  intros H. destruct r as [[status responses message]|e];
    unfold uploadFile_resume; run_monad.
  - cbn in H. rewrite H. cbn. eexists. split; [reflexivity|]. cbn.
    split; [reflexivity|]. split; [|reflexivity].
    unfold session_ids. rewrite flat_map_app. cbn. by rewrite app_nil_r.
  - eexists. split; [reflexivity|]. cbn.
    split; [reflexivity|]. split; [|reflexivity].
    unfold session_ids. rewrite flat_map_app. cbn. by rewrite app_nil_r.
Qed.

Lemma uploadFile_failure_one_message_witness :
  exists w',
    uploadFile_resume (Resolved (UploadData.mk "error" None (Some "")))
      (selected budget_xlsx (initial_world frozen_clock)) = (Normal tt, w')
    /\ messages w' = [Msg.plain "File processed with some issues." false].
Proof.
  destruct (uploadFile_failure_one_message
              (Resolved (UploadData.mk "error" None (Some "")))
              (selected budget_xlsx (initial_world frozen_clock)) eq_refl)
    as (w' & E & Hm & _).
  exists w'. split; [exact E | exact Hm].
Defined.

(** X10: a ["success"] answer without its [responses] array.  The
    confirmation is queued before the array is read, so the list ends with
    the confirmation followed by the error message; the id of the
    confirmation is built from the second reading of the clock, the first
    one having gone to the id of the QA container that was never built.
    There is no QA container and no download prompt, and the file stays
    selected. *)
Theorem uploadFile_success_without_responses (message : option string)
    (w : world) :
  exists w',
    uploadFile_resume (Resolved (UploadData.mk "success" None message)) w
      = (Normal tt, w')
    /\ messages w' =
         messages w ++ [
           Msg.with_id ("file-" +:+ pretty (clock w (S (ticks w))))
             "File processed successfully! Here are the responses to your questions:";
           Msg.plain "Error processing the file. Please try again." false]
    /\ selectedFile w' = selectedFile w
    /\ isProcessing w' = false
    /\ ticks w' = S (S (ticks w))
    /\ new_events w w' = [ConsoleError "Error uploading file:"].
Proof.
  unfold uploadFile_resume. run_monad.
  eexists. split; [reflexivity|]. cbn -[pretty].
  rewrite <- app_assoc. repeat (split; [reflexivity|]).
  by apply new_events_app.
Qed.

(** ** The ids of a session *)

Lemma before_last_dash (a b d e : string) :
  is_digits d = true -> is_digits e = true ->
  a +:+ String "-" d = b +:+ String "-" e -> a = b.
Proof.
  revert b. induction a as [|c a IH]; intros [|c' b] Hd He Heq;
    rewrite ?string_app_nil, ?string_app_cons in Heq.
  - done.
  - injection Heq as _ ->. pose proof (digits_no_dash b e). congruence.
  - injection Heq as _ <-. pose proof (digits_no_dash a d). congruence.
  - injection Heq as -> Heq. f_equal. eauto.
Qed.

Lemma item_id_reading (now now' : Z) (i j : nat) :
  item_id now i = item_id now' j -> now = now'.
Proof.
  unfold item_id. intros H.
  apply (inj (String.app "qa-item-")) in H.
  apply before_last_dash in H; auto using pretty_nat_digits.
  by apply (inj pretty) in H.
Qed.

(** A numeral starts with a digit or with the sign. *)
Lemma pretty_Z_head (z : Z) (c : ascii) (t : string) :
  pretty z = String c t -> is_digit c = true \/ c = "-"%char.
Proof.
  destruct z as [|p|p].
  - intros [= <- _]. by left.
  - change (pretty (Z.pos p)) with (pretty (N.pos p)). intros H.
    pose proof (pretty_N_digits (N.pos p)) as D. rewrite H in D.
    cbn in D. apply andb_true_iff in D as [D _]. by left.
  - change (pretty (Z.neg p)) with ("-" +:+ pretty (N.pos p)).
    rewrite string_app_cons. intros [= <- _]. by right.
Qed.

Lemma pretty_Z_not_letter (z : Z) (c : ascii) (t : string) :
  is_digit c = false -> c <> "-"%char -> pretty z <> String c t.
Proof.
  intros Hc Hd H. apply pretty_Z_head in H as [H| ->]; congruence.
Qed.

Lemma flat_id_not_item_id (now now' : Z) (index : nat) (s : string) :
  flat_id now s -> s <> item_id now' index.
Proof.
  intros [->|[->| ->]].
  - by apply pretty_Z_not_letter.
  - discriminate.
  - apply container_id_not_item_id.
Qed.

(** The id of an entry tells the reading of the clock it was built from. *)
Lemma flat_id_reading (now now' : Z) (s : string) :
  flat_id now s -> flat_id now' s -> now = now'.
Proof.
  intros [->|[->| ->]] [H|[H|H]];
    try (by apply (inj pretty) in H);
    try (by apply (inj (String.app "file-")), (inj pretty) in H);
    try (by apply (inj (String.app "qa-")), (inj pretty) in H);
    try discriminate H;
    try (symmetry in H; by apply pretty_Z_not_letter in H);
    by apply pretty_Z_not_letter in H.
Qed.

Lemma qaItems_from_ticks clock t index items (q : QaItem.t) :
  In q (qaItems_from clock t index items) ->
  exists k j, t <= k < t + length items /\ QaItem.id q = item_id (clock k) j.
Proof.
  revert t index. induction items as [|x rest IH]; intros t index H;
    cbn [qaItems_from] in H; [contradiction|].
  destruct H as [<-|H].
  - exists t, index. cbn. split; [lia|done].
  - apply IH in H as (k & j & Hk & ->). exists k, j. cbn. split; [lia|done].
Qed.

Lemma session_ids_app (l1 l2 : list Msg.t) :
  session_ids (l1 ++ l2) = session_ids l1 ++ session_ids l2.
Proof. apply flat_map_app. Qed.

Lemma in_session_ids (s : string) (msgs : list Msg.t) :
  In s (session_ids msgs) <->
  exists m, In m msgs
            /\ (Msg.id m = Some s
                \/ exists items q, Msg.qaItems m = Some items
                                   /\ In q items /\ QaItem.id q = s).
Proof.
  unfold session_ids. rewrite in_flat_map. unfold ids_of.
  split; intros (m & Hm & H); exists m; (split; [exact Hm|]).
  - apply in_app_or in H as [H|H].
    + left. destruct (Msg.id m); cbn in H; [|contradiction].
      destruct H as [->|[]]. done.
    + right. destruct (Msg.qaItems m) as [items|]; cbn in H; [|contradiction].
      apply in_map_iff in H as (q & Hq & Hin). by exists items, q.
  - apply in_or_app. destruct H as [H|(items & q & Hi & Hin & <-)].
    + left. rewrite H. by left.
    + right. rewrite Hi. cbn. by apply in_map.
Qed.

Lemma ids_between_nil clock lo hi : ids_between clock lo hi [].
Proof. split; [intros ? ? []|intros ? ? ? []]. Qed.

Lemma ids_between_plain clock lo hi (text : string) (isUser : bool) :
  ids_between clock lo hi [Msg.plain text isUser].
Proof.
  split.
  - intros m s [<-|[]] H. discriminate.
  - intros m items q [<-|[]] H. discriminate.
Qed.

Lemma effect_nil (res : completion unit * world) (w w' : world) :
  res = (Normal tt, w') -> messages w' = messages w ->
  clock w' = clock w -> ticks w' = ticks w ->
  exists w' new,
    res = (Normal tt, w')
    /\ messages w' = messages w ++ new
    /\ clock w' = clock w
    /\ ticks w <= ticks w'
    /\ List.NoDup (session_ids new)
    /\ ids_between (clock w) (ticks w) (ticks w') new.
Proof.
  intros -> Hm Hc Ht. exists w', []. rewrite app_nil_r.
  repeat (split; [done || lia|]).
  split; [constructor|apply ids_between_nil].
Qed.

Lemma effect_plain (res : completion unit * world) (w w' : world)
    (text : string) (isUser : bool) :
  res = (Normal tt, w') ->
  messages w' = messages w ++ [Msg.plain text isUser] ->
  clock w' = clock w -> ticks w' = ticks w ->
  exists w' new,
    res = (Normal tt, w')
    /\ messages w' = messages w ++ new
    /\ clock w' = clock w
    /\ ticks w <= ticks w'
    /\ List.NoDup (session_ids new)
    /\ ids_between (clock w) (ticks w) (ticks w') new.
Proof.
  intros -> Hm Hc Ht. exists w', [Msg.plain text isUser].
  repeat (split; [done || lia|]).
  split; [constructor|apply ids_between_plain].
Qed.

(** What one step does to the list of messages and to the clock. *)
Lemma run_step_effect (s : step) (w : world) :
  exists w' new,
    run_step s w = (Normal tt, w')
    /\ messages w' = messages w ++ new
    /\ clock w' = clock w
    /\ ticks w <= ticks w'
    /\ List.NoDup (session_ids new)
    /\ ids_between (clock w) (ticks w) (ticks w') new.
Proof.
  destruct s as [value|files| |userMessage r| |r|fd|fd r|id|id|id];
    cbn [run_step].
  - unfold setInput, modify. eapply effect_nil; reflexivity.
  - destruct files; unfold handleFileChange; run_monad;
      eapply effect_nil; reflexivity.
  - unfold sendMessage_begin. run_monad.
    destruct (JsString.truthy (JsString.trim (input w))); cbn;
      [eapply effect_plain; reflexivity|eapply effect_nil; reflexivity].
  - destruct r as [data|e]; unfold sendMessage_resume; run_monad;
      (eexists _, [_]; split; [reflexivity|]; cbn -[pretty];
       split; [reflexivity|]; split; [reflexivity|]; split; [lia|];
       split; [repeat constructor; by intros []|]; split;
       [intros m s [<-|[]] [= <-]; exists (ticks w); split; [lia|by left]
       |intros m items q [<-|[]] H; discriminate]).
  - unfold uploadFile_begin. run_monad. destruct (selectedFile w); cbn;
      [eapply effect_plain; reflexivity|eapply effect_nil; reflexivity].
  - destruct r as [[status responses message]|e];
      unfold uploadFile_resume; run_monad.
    + destruct (String.eqb status "success"); cbn -[pretty];
        [destruct responses as [items|]; cbn -[pretty];
           [rewrite map_qaItems_run; cbn -[pretty]|]|].
      * eexists _, [_; _; _]. split; [reflexivity|]. cbn -[pretty].
        rewrite <- !app_assoc.
        split; [reflexivity|]. split; [reflexivity|]. split; [lia|].
        split; [|split].
        -- unfold session_ids, ids_of. cbn -[pretty]. rewrite !app_nil_r.
           constructor.
           { intros [H|H]; [discriminate H|].
             apply qaItems_from_ids in H as (now & j & H & _).
             discriminate H. }
           constructor;
             [apply qaItems_from_not_container | apply qaItems_from_NoDup].
        -- intros m s [<-|[<-|[<-|[]]]] [= <-].
           ++ eexists. split; [|right; left; reflexivity]. lia.
           ++ exists (ticks w). split; [lia|]. right. by right.
        -- intros m l q [<-|[<-|[<-|[]]]] [= <-] Hq.
           apply qaItems_from_ticks in Hq as (k & j & Hk & ->).
           exists k, j. split; [lia|done].
      * eexists _, [_; _]. split; [reflexivity|]. cbn -[pretty].
        rewrite <- !app_assoc.
        split; [reflexivity|]. split; [reflexivity|]. split; [lia|].
        split; [repeat constructor; by intros []|]. split.
        -- intros m s [<-|[<-|[]]] [= <-].
           exists (S (ticks w)). split; [lia|]. right. by left.
        -- intros m l q [<-|[<-|[]]] H; discriminate.
      * eapply effect_plain; reflexivity.
    + eapply effect_plain; reflexivity.
  - unfold bind.
    destruct (handleFeedbackSubmit_begin_cases fd w) as (sent & evs & ->).
    unfold ret. eapply effect_nil; reflexivity.
  - destruct (handleFeedbackSubmit_resume_cases fd r w)
      as (evs & vis & -> & _).
    eapply effect_nil; reflexivity.
  - unfold toggleFeedback. run_monad. eapply effect_nil; reflexivity.
  - unfold openFeedback. run_monad. eapply effect_nil; reflexivity.
  - unfold handleCancelFeedback. run_monad. eapply effect_nil; reflexivity.
Qed.

Lemma ids_between_widen clock lo hi hi' (msgs : list Msg.t) :
  hi <= hi' -> ids_between clock lo hi msgs -> ids_between clock lo hi' msgs.
Proof.
  intros Hle [Hf Hi]. split.
  - intros m s Hm Hs. destruct (Hf m s Hm Hs) as (t & Ht & H).
    exists t. split; [lia|done].
  - intros m items q Hm Hq Hin.
    destruct (Hi m items q Hm Hq Hin) as (t & j & Ht & H).
    exists t, j. split; [lia|done].
Qed.

Lemma ids_between_app clock lo mid hi (old new : list Msg.t) :
  lo <= mid <= hi ->
  ids_between clock lo mid old -> ids_between clock mid hi new ->
  ids_between clock lo hi (old ++ new).
Proof.
  intros Hle [Hf Hi] [Hf' Hi']. split.
  - intros m s [Hm|Hm]%in_app_or Hs.
    + destruct (Hf m s Hm Hs) as (t & Ht & H). exists t. split; [lia|done].
    + destruct (Hf' m s Hm Hs) as (t & Ht & H). exists t. split; [lia|done].
  - intros m items q [Hm|Hm]%in_app_or Hq Hin.
    + destruct (Hi m items q Hm Hq Hin) as (t & j & Ht & H).
      exists t, j. split; [lia|done].
    + destruct (Hi' m items q Hm Hq Hin) as (t & j & Ht & H).
      exists t, j. split; [lia|done].
Qed.

Lemma ids_between_no_ids clock lo hi (msgs : list Msg.t) :
  session_ids msgs = [] -> ids_between clock lo hi msgs.
Proof.
  intros H. split.
  - intros m s Hm Hs.
    assert (In s (session_ids msgs)) as Hin
      by (apply in_session_ids; exists m; auto).
    rewrite H in Hin. destruct Hin.
  - intros m items q Hm Hq Hin.
    assert (In (QaItem.id q) (session_ids msgs)) as Hin'
      by (apply in_session_ids; exists m; split; [done|]; right; eauto).
    rewrite H in Hin'. destruct Hin'.
Qed.

Lemma ids_between_reading clock lo hi (msgs : list Msg.t) (s : string) :
  ids_between clock lo hi msgs -> In s (session_ids msgs) ->
  exists t, lo <= t < hi
            /\ (flat_id (clock t) s \/ exists j, s = item_id (clock t) j).
Proof.
  intros [Hf Hi] (m & Hm & [Hs|(items & q & Hq & Hin & <-)])%in_session_ids.
  - destruct (Hf m s Hm Hs) as (t & Ht & H). exists t. auto.
  - destruct (Hi m items q Hm Hq Hin) as (t & j & Ht & H). exists t. eauto.
Qed.

(** Two ids built from different readings of the clock differ. *)
Lemma ids_of_different_readings (now now' : Z) (s : string) :
  (flat_id now s \/ exists j, s = item_id now j) ->
  (flat_id now' s \/ exists j, s = item_id now' j) ->
  now = now'.
Proof.
  intros [H|[j ->]] [H'|[j' H']].
  - by apply (flat_id_reading _ _ s).
  - destruct (flat_id_not_item_id _ now' j' _ H H').
  - destruct (flat_id_not_item_id _ now j _ H' eq_refl).
  - by apply item_id_reading in H'.
Qed.

Lemma run_steps_effect (steps : list step) (w : world) :
  ids_between (clock w) 0 (ticks w) (messages w) ->
  exists new,
    messages (run_steps steps w) = messages w ++ new
    /\ clock (run_steps steps w) = clock w
    /\ ticks w <= ticks (run_steps steps w)
    /\ ids_between (clock w) 0 (ticks (run_steps steps w))
         (messages (run_steps steps w))
    /\ ((forall t t', clock w t = clock w t' -> t = t') ->
        List.NoDup (session_ids (messages w)) ->
        List.NoDup (session_ids (messages (run_steps steps w)))).
Proof.
  revert w. induction steps as [|s steps IH]; intros w Hinv.
  - exists []. cbn. rewrite app_nil_r. auto.
  - cbn [run_steps].
    destruct (run_step_effect s w) as (w1 & new & E & Hm & Hc & Ht & Hnd & Hb).
    rewrite E. cbn [snd].
    assert (ids_between (clock w1) 0 (ticks w1) (messages w1)) as Hinv1.
    { rewrite Hc, Hm. apply (ids_between_app _ 0 (ticks w)); [lia|done..]. }
    destruct (IH w1 Hinv1) as (new' & Hm' & Hc' & Ht' & Hinv' & Hnd').
    exists (new ++ new').
    split; [by rewrite Hm', Hm, <- app_assoc|].
    split; [by rewrite Hc'|]. split; [lia|].
    split; [by rewrite Hc in Hinv'|].
    intros Hinj Hold. apply Hnd'; [by rewrite Hc|].
    rewrite Hm, session_ids_app. apply List.NoDup_app; [done..|].
    intros x Hx Hx'.
    destruct (ids_between_reading _ _ _ _ _ Hinv Hx) as (t & Hlt & Hs).
    destruct (ids_between_reading _ _ _ _ _ Hb Hx') as (t' & Hge & Hs').
    pose proof (ids_of_different_readings _ _ _ Hs Hs') as Heq.
    apply Hinj in Heq. lia.
Qed.

(** X11: the list of messages only grows.  Whatever steps a session takes,
    in whatever order the calls and the settlements of the requests come,
    the messages there were are still there, at the same places and
    unchanged, and no step completes with an exception. *)
Theorem session_append_only (steps : list step) (w : world) :
  (exists new, messages (run_steps steps w) = messages w ++ new)
  /\ (forall s, fst (run_step s w) = Normal tt).
Proof.
  split.
  - revert w. induction steps as [|s steps IH]; intros w.
    + exists []. cbn. by rewrite app_nil_r.
    + cbn [run_steps].
      destruct (run_step_effect s w) as (w1 & new & E & Hm & _).
      rewrite E. cbn [snd]. destruct (IH w1) as (new' & ->).
      exists (new ++ new'). by rewrite Hm, <- app_assoc.
  - intros s. destruct (run_step_effect s w) as (w1 & new & E & _).
    by rewrite E.
Qed.

(** X12: when the clock never gives the same reading twice, all the ids of
    a session are distinct: starting from messages without ids (the welcome
    message), whatever steps the session takes, no two entries and no two QA
    items, of the same or of different uploads, share an id. *)
Theorem session_ids_unique (steps : list step) (w : world) :
  (forall t t', clock w t = clock w t' -> t = t') ->
  session_ids (messages w) = [] ->
  List.NoDup (session_ids (messages (run_steps steps w))).
Proof.
  intros Hinj Hnone.
  destruct (run_steps_effect steps w (ids_between_no_ids _ _ _ _ Hnone))
    as (new & _ & _ & _ & _ & Hnd).
  apply Hnd; [exact Hinj|]. rewrite Hnone. constructor.
Qed.

(** X13: the id of a QA item is never the id of an entry of the flat list.
    In every session that starts from messages without ids, a suggestion on
    a QA item is therefore resolved among the QA items, never through a
    message of the flat list. *)
Theorem session_item_ids_not_flat (steps : list step) (w : world)
    (m : Msg.t) (items : list QaItem.t) (q : QaItem.t) :
  session_ids (messages w) = [] ->
  In m (messages (run_steps steps w)) ->
  Msg.qaItems m = Some items ->
  In q items ->
  find_message (messages (run_steps steps w)) (QaItem.id q) = None.
Proof.
  intros Hnone Hm Hq Hin.
  destruct (run_steps_effect steps w (ids_between_no_ids _ _ _ _ Hnone))
    as (new & _ & _ & _ & [Hf Hi] & _).
  destruct (Hi m items q Hm Hq Hin) as (t & j & _ & Hid).
  apply find_message_None. intros m' Hm' Hid'.
  destruct (Hf m' _ Hm' Hid') as (t' & _ & Hflat).
  exact (flat_id_not_item_id _ (clock w t) j _ Hflat Hid).
Qed.

Lemma session_ids_unique_witness :
  List.NoDup
    (session_ids
       (messages (run_steps sample_session (initial_world running_clock)))).
Proof.
  apply (session_ids_unique sample_session (initial_world running_clock)).
  - intros t t' H. cbn in H. unfold running_clock in H. lia.
  - reflexivity.
Defined.

Lemma session_item_ids_not_flat_witness :
  find_message
    (messages (run_steps sample_session (initial_world running_clock)))
    "qa-item-1700000000003-1" = None.
Proof.
  apply (session_item_ids_not_flat sample_session
           (initial_world running_clock)
           (Msg.mk (Some "qa-1700000000001") None false true
              (Some [QaItem.mk "qa-item-1700000000002-0" "Q1 spend?" "$10k"
                       "sheet1";
                     QaItem.mk "qa-item-1700000000003-1" "Q2 spend?" "$12k"
                       "unknown"])
              false false None None)
           [QaItem.mk "qa-item-1700000000002-0" "Q1 spend?" "$10k" "sheet1";
            QaItem.mk "qa-item-1700000000003-1" "Q2 spend?" "$12k" "unknown"]
           (QaItem.mk "qa-item-1700000000003-1" "Q2 spend?" "$12k" "unknown")).
  - reflexivity.
  - vm_compute. do 4 right. left. reflexivity.
  - reflexivity.
  - right. left. reflexivity.
Defined.

(** X14: the ids of one upload are distinct whatever the clock reads, even
    when every reading is the same: the confirmation, the QA container and
    each of the N items carry N + 2 different ids. *)
Theorem uploadFile_ids_distinct (items : list UploadItem.t)
    (message : option string) (w : world) :
  exists w' new,
    uploadFile_resume
      (Resolved (UploadData.mk "success" (Some items) message)) w
      = (Normal tt, w')
    /\ messages w' = messages w ++ new
    /\ length (session_ids new) = length items + 2
    /\ List.NoDup (session_ids new).
Proof.
  unfold uploadFile_resume. run_monad.
  rewrite map_qaItems_run. cbn -[pretty].
  eexists _, [_; _; _]. split; [reflexivity|]. cbn -[pretty].
  rewrite <- !app_assoc. split; [reflexivity|].
  unfold session_ids, ids_of. cbn -[pretty]. rewrite !app_nil_r.
  split.
  - rewrite length_map, qaItems_from_length. lia.
  - constructor.
    { intros [H|H]; [discriminate H|].
      apply qaItems_from_ids in H as (now & j & H & _). discriminate H. }
    constructor;
      [apply qaItems_from_not_container | apply qaItems_from_NoDup].
Qed.

(** X15: the file that is posted is the first of the files chosen last,
    whatever its name: [handleFileChange] and [uploadFile] do not look at
    the extension, and an empty choice keeps the file chosen before. *)
Theorem chosen_file_is_posted (file : File.t) (others : list File.t)
    (w : world) :
  new_events w (run_steps [ChooseFiles (file :: others); ChooseFiles [];
                           UploadCalled] w)
    = [AxiosPost (API_BASE_URL +:+ "/upload") (UploadBody file)]
  /\ selectedFile (run_steps [ChooseFiles (file :: others); ChooseFiles [];
                              UploadCalled] w) = Some file.
Proof. split; [by apply new_events_app|reflexivity]. Qed.

(** * The static page *)

(** ** The upload section *)

(** The upload section with the identity of the nodes and the timers
    forgotten is the upload section of [Static]: up to its first [await],
    [handleFile] does the same in both. *)
Lemma handleFile_begin_erase (file : File.t) (s : UploadPage.state) :
  Static.handleFile_begin file (UploadPage.erase s) =
    (Normal (bool_decide (is_Some (snd (UploadPage.handleFile_begin file s)))),
     UploadPage.erase (fst (UploadPage.handleFile_begin file s))).
Proof.
  unfold Static.handleFile_begin, UploadPage.handleFile_begin.
  destruct (JsString.match_excel (File.name file)); reflexivity.
Qed.

Module TimerFacts.
Import UploadPage.

Lemma insert_first (x : nat * callback) (l : list (nat * callback)) :
  Forall (fun y => fst x < fst y) l -> insert_timeout x l = x :: l.
Proof.
  destruct l as [|y l]; [done|]. intros H. apply Forall_cons_1 in H as [H _].
  cbn [insert_timeout]. by rewrite (proj2 (Nat.ltb_lt _ _) H).
Qed.

Lemma insert_last (x : nat * callback) (l : list (nat * callback)) :
  Forall (fun y => fst y <= fst x) l -> insert_timeout x l = l ++ [x].
Proof.
  induction l as [|y l IH]; [done|]. intros H.
  apply Forall_cons_1 in H as [Hy H]. cbn [insert_timeout].
  rewrite (proj2 (Nat.ltb_ge _ _) Hy). by rewrite IH.
Qed.

Lemma insert_Forall (P : nat * callback -> Prop) (x : nat * callback)
    (l : list (nat * callback)) :
  P x -> Forall P l -> Forall P (insert_timeout x l).
Proof.
  intros Hx. induction l as [|y l IH]; intros H; cbn [insert_timeout].
  - by constructor.
  - apply Forall_cons_1 in H as [Hy H].
    destruct (fst x <? fst y)%nat; repeat constructor; auto.
Qed.

Lemma insert_ordered (x : nat * callback) (l : list (nat * callback)) :
  ordered l -> ordered (insert_timeout x l).
Proof.
  induction l as [|y l IH]; intros H; cbn [insert_timeout].
  - by split.
  - destruct H as [Hy H]. destruct (fst x <? fst y)%nat eqn:E.
    + apply Nat.ltb_lt in E. split; [|by split].
      constructor; [lia|]. eapply Forall_impl; [exact Hy|].
      cbn. intros z Hz. lia.
    + apply Nat.ltb_ge in E. split; [|by apply IH].
      by apply insert_Forall.
Qed.

Lemma filter_insert (x : nat * callback) (l : list (nat * callback)) :
  ordered l ->
  List.filter appends (insert_timeout x l) =
    if appends x then insert_timeout x (List.filter appends l)
    else List.filter appends l.
Proof.
  induction l as [|y l IH]; intros H.
  - cbn. by destruct (appends x).
  - destruct H as [Hy H]. cbn [insert_timeout].
    destruct (fst x <? fst y)%nat eqn:E.
    + apply Nat.ltb_lt in E.
      change (List.filter appends (x :: y :: l))
        with (if appends x then x :: List.filter appends (y :: l)
              else List.filter appends (y :: l)).
      destruct (appends x); [|done].
      rewrite insert_first; [done|].
      apply List.Forall_forall. intros z Hz.
      apply filter_In in Hz as [[<-|Hz] _]; [done|].
      rewrite List.Forall_forall in Hy. apply Hy in Hz. lia.
    + change (List.filter appends (y :: insert_timeout x l))
        with (if appends y then y :: List.filter appends (insert_timeout x l)
              else List.filter appends (insert_timeout x l)).
      change (List.filter appends (y :: l))
        with (if appends y then y :: List.filter appends l
              else List.filter appends l).
      rewrite (IH H).
      destruct (appends y), (appends x); cbn [insert_timeout]; try done.
      by rewrite E.
Qed.

Lemma sort_filter (l acc : list (nat * callback)) :
  ordered acc ->
  List.filter appends (fold_left (fun sorted x => insert_timeout x sorted) l acc) =
    fold_left (fun sorted x => insert_timeout x sorted)
      (List.filter appends l) (List.filter appends acc).
Proof.
  revert acc. induction l as [|x l IH]; intros acc H; [done|].
  cbn [fold_left]. rewrite IH by by apply insert_ordered.
  rewrite filter_insert by done.
  change (List.filter appends (x :: l))
    with (if appends x then x :: List.filter appends l else List.filter appends l).
  by destruct (appends x).
Qed.

Lemma sort_ordered (l acc : list (nat * callback)) :
  ordered (acc ++ l) ->
  fold_left (fun sorted x => insert_timeout x sorted) l acc = acc ++ l.
Proof.
  revert acc. induction l as [|x l IH]; intros acc H.
  - cbn. by rewrite app_nil_r.
  - cbn [fold_left]. rewrite insert_last.
    + rewrite IH; rewrite <- app_assoc; done.
    + clear IH. induction acc as [|a acc IHa]; [constructor|].
      destruct H as [Ha H]. constructor; [|by apply IHa].
      rewrite Forall_app in Ha. destruct Ha as [_ Ha].
      by apply Forall_cons_1 in Ha as [Ha _].
Qed.

Lemma sort_In (c : callback) (l acc : list (nat * callback)) :
  In c (map snd (fold_left (fun sorted x => insert_timeout x sorted) l acc))
  <-> In c (map snd acc) \/ In c (map snd l).
Proof.
  assert (forall x a, In c (map snd (insert_timeout x a))
                      <-> snd x = c \/ In c (map snd a)) as Hins.
  { intros x a. induction a as [|y a IH]; cbn [insert_timeout].
    - cbn. tauto.
    - destruct (fst x <? fst y)%nat; cbn [map In].
      + tauto.
      + rewrite IH. tauto. }
  revert acc. induction l as [|x l IH]; intros acc; cbn [fold_left].
  - cbn. tauto.
  - rewrite IH, Hins. cbn [map In]. tauto.
Qed.

Lemma schedule_from (items : list UploadItem.t) (delay : nat) :
  Forall (fun y => delay <= fst y) (schedule items delay)
  /\ ordered (schedule items delay)
  /\ List.filter appends (schedule items delay) = schedule items delay
  /\ appended (map snd (schedule items delay)) = shown items.
Proof.
  revert delay. induction items as [|item rest IH]; intros delay.
  - repeat split. constructor.
  - destruct (IH (delay + 300 + 300)) as (Hge & Hord & Hf & Ha).
    cbn [schedule]. repeat split.
    + constructor; [cbn; lia|]. constructor; [cbn; lia|].
      eapply Forall_impl; [exact Hge|]. cbn. intros. lia.
    + constructor; [cbn; lia|].
      eapply Forall_impl; [exact Hge|]. cbn. intros. lia.
    + eapply Forall_impl; [exact Hge|]. cbn. intros. lia.
    + exact Hord.
    + change (List.filter appends (?x :: ?y :: ?l)) with (x :: y :: List.filter appends l).
      by rewrite Hf.
    + cbn. f_equal. f_equal. exact Ha.
Qed.

Lemma appended_filter (l : list (nat * callback)) :
  appended (map snd (List.filter appends l)) = appended (map snd l).
Proof.
  unfold appended.
  induction l as [|[d [|type text source]] l IH]; [done|exact IH|].
  cbn [List.filter appends snd map flat_map app]. f_equal. exact IH.
Qed.

(** After the progress bar is reset, and the responses of an upload are
    scheduled, the timers append the questions and the answers in the order
    of the file. *)
Lemma firing_order_schedule (items : list UploadItem.t) :
  appended (firing_order ((1000, ResetProgress) :: schedule items 0))
  = shown items
  /\ In ResetProgress
       (firing_order ((1000, ResetProgress) :: schedule items 0)).
Proof.
  destruct (schedule_from items 0) as (_ & Hord & Hf & Ha).
  unfold firing_order. split.
  - rewrite <- appended_filter, sort_filter by done.
    change (List.filter appends ((1000, ResetProgress) :: schedule items 0))
      with (List.filter appends (schedule items 0)).
    rewrite Hf. cbn [List.filter]. by rewrite (sort_ordered _ []).
  - apply sort_In. right. by left.
Qed.

Lemma fire_callbacks (cs : list callback) (s : state) :
  let s' := fold_left (fun s c => fire c s) cs s in
  map content (chatContainer s') = map content (chatContainer s) ++ appended cs
  /\ notifications s' = notifications s
  /\ requests s' = requests s
  /\ timeouts s' = timeouts s
  /\ (In ResetProgress cs
      \/ progressBar_hidden s = true /\ progress_width s = "0%" ->
      progressBar_hidden s' = true /\ progress_width s' = "0%").
Proof.
  revert s. induction cs as [|c cs IH]; intros s; cbn [fold_left].
  - cbn. rewrite app_nil_r.
    split; [done|]. split; [done|]. split; [done|]. split; [done|].
    intros [[]|H]. exact H.
  - destruct (IH (fire c s)) as (Hc & Hn & Hr & Ht & Hp). cbn zeta in *.
    destruct c as [|type text source].
    + split; [exact Hc|]. split; [exact Hn|]. split; [exact Hr|].
      split; [exact Ht|]. intros _. apply Hp. by right.
    + split.
      { rewrite Hc. cbn. by rewrite map_app, <- app_assoc. }
      split; [exact Hn|]. split; [exact Hr|]. split; [exact Ht|].
      intros [[H|H]|H]; [discriminate| |]; apply Hp; auto.
Qed.

End TimerFacts.

Lemma handleFile_begin_accepted (file : File.t) (s : UploadPage.state) :
  JsString.match_excel (File.name file) = true ->
  UploadPage.handleFile_begin file s =
    (UploadPage.mk
       [UploadPage.mkNode (UploadPage.next_node s)
          (UploadPage.MessageElement Static.thinkingMessage)]
       (S (UploadPage.next_node s)) (UploadPage.notifications s) false "30%"
       (UploadPage.requests s ++ [Static.Fetch "/upload" file])
       (UploadPage.timeouts s),
     Some (UploadPage.next_node s)).
Proof. intros H. unfold UploadPage.handleFile_begin. by rewrite H. Qed.

(** X16: an upload on the static page, from the choice of an accepted file
    to the last timer, with no other upload in between.  For an answer whose
    status is ["success"] and that has at least one pair (the [ok] flag of
    the response is not looked at), the thinking message is removed, the
    progress bar goes to 100%, the success notification is shown, and the
    timers, once fired, leave in the container the question and the answer
    of each pair, in the order of the file, and the progress bar hidden at
    0%. *)
Theorem handleFile_success_shows_pairs (file : File.t)
    (item : UploadItem.t) (rest : list UploadItem.t)
    (message : option string) (ok : bool) (notAChild : string)
    (s : UploadPage.state) :
  JsString.match_excel (File.name file) = true ->
  UploadPage.timeouts s = [] ->
  let s1 := fst (UploadPage.handleFile_begin file s) in
  let s2 :=
    UploadPage.handleFile_settled (UploadPage.next_node s)
      (Json ok (UploadData.mk "success" (Some (item :: rest)) message))
      notAChild s1 in
  let s3 := UploadPage.fire_all s2 in
  UploadPage.chatContainer s2 = []
  /\ UploadPage.progress_width s2 = "100%"
  /\ UploadPage.notifications s2 =
       UploadPage.notifications s ++ [("File processed successfully!", "success")]
  /\ UploadPage.timeouts s2 =
       (1000, UploadPage.ResetProgress)
       :: UploadPage.schedule (item :: rest) 0
  /\ map UploadPage.content (UploadPage.chatContainer s3)
     = UploadPage.shown (item :: rest)
  /\ UploadPage.progressBar_hidden s3 = true
  /\ UploadPage.progress_width s3 = "0%"
  /\ UploadPage.notifications s3 = UploadPage.notifications s2.
Proof.
  intros Hname Ht s1 s2 s3. subst s1 s2 s3.
  rewrite (handleFile_begin_accepted file s Hname). cbn [fst].
  assert (UploadPage.handleFile_settled (UploadPage.next_node s)
            (Json ok (UploadData.mk "success" (Some (item :: rest)) message))
            notAChild
            (UploadPage.mk
               [UploadPage.mkNode (UploadPage.next_node s)
                  (UploadPage.MessageElement Static.thinkingMessage)]
               (S (UploadPage.next_node s)) (UploadPage.notifications s)
               false "30%"
               (UploadPage.requests s ++ [Static.Fetch "/upload" file])
               (UploadPage.timeouts s))
          = UploadPage.mk [] (S (UploadPage.next_node s))
              (UploadPage.notifications s
                 ++ [("File processed successfully!", "success")])
              false "100%"
              (UploadPage.requests s ++ [Static.Fetch "/upload" file])
              ((1000, UploadPage.ResetProgress)
               :: UploadPage.schedule (item :: rest) 0)) as ->.
  { unfold UploadPage.handleFile_settled, UploadPage.contains.
    cbn -[UploadPage.schedule]. rewrite Nat.eqb_refl.
    cbn -[UploadPage.schedule]. by rewrite Ht. }
  repeat (split; [reflexivity|]).
  unfold UploadPage.fire_all.
  cbn [UploadPage.timeouts UploadPage.chatContainer UploadPage.next_node
       UploadPage.notifications UploadPage.progressBar_hidden
       UploadPage.progress_width UploadPage.requests].
  match goal with
  | |- context [fold_left _ ?cs ?s0] =>
      destruct (TimerFacts.fire_callbacks cs s0) as (Hc & Hn & _ & _ & Hp)
  end.
  cbn zeta in Hc, Hn, Hp.
  destruct (TimerFacts.firing_order_schedule (item :: rest)) as [Ha Hin].
  rewrite Hc, Ha, Hn.
  destruct (Hp (or_introl Hin)) as [-> ->]. done.
Qed.

Lemma handleFile_success_shows_pairs_witness :
  map UploadPage.content
    (UploadPage.chatContainer
       (UploadPage.fire_all
          (UploadPage.handleFile_settled 0
             (Json true
                (UploadData.mk "success"
                   (Some [UploadItem.mk "Q1 spend?" "$10k" (Some "sheet1");
                          UploadItem.mk "Q2 spend?" "$12k" None]) None))
             "not a child"
             (fst (UploadPage.handleFile_begin budget_xlsx
                     UploadPage.initial)))))
  = [UploadPage.MessageElement
       (Static.mkElement "question" "Q1 spend?" "User");
     UploadPage.MessageElement
       (Static.mkElement "response" "$10k" "sheet1");
     UploadPage.MessageElement
       (Static.mkElement "question" "Q2 spend?" "User");
     UploadPage.MessageElement
       (Static.mkElement "response" "$12k" "AI Assistant")].
Proof.
  exact (proj1 (proj2 (proj2 (proj2 (proj2
           (handleFile_success_shows_pairs budget_xlsx
              (UploadItem.mk "Q1 spend?" "$10k" (Some "sheet1"))
              [UploadItem.mk "Q2 spend?" "$12k" None] None true
              "not a child" UploadPage.initial eq_refl eq_refl)))))).
Defined.

(** X17: a ["success"] answer without pairs (no [responses], or an empty
    array): the container shows the no-questions notice at once and nothing
    else, no answer is scheduled, and the success notification is shown all
    the same. *)
Theorem handleFile_success_without_pairs (file : File.t)
    (responses : option (list UploadItem.t)) (message : option string)
    (ok : bool) (notAChild : string) (s : UploadPage.state) :
  JsString.match_excel (File.name file) = true ->
  default [] responses = [] ->
  let s2 :=
    UploadPage.handleFile_settled (UploadPage.next_node s)
      (Json ok (UploadData.mk "success" responses message)) notAChild
      (fst (UploadPage.handleFile_begin file s)) in
  map UploadPage.content (UploadPage.chatContainer s2)
    = [UploadPage.EmptyMessage UploadPage.no_questions_text]
  /\ UploadPage.notifications s2 =
       UploadPage.notifications s ++ [("File processed successfully!", "success")]
  /\ UploadPage.timeouts s2 =
       UploadPage.timeouts s ++ [(1000, UploadPage.ResetProgress)].
Proof.
  intros Hname Hempty s2. subst s2.
  rewrite (handleFile_begin_accepted file s Hname). cbn [fst].
  unfold UploadPage.handleFile_settled, UploadPage.contains. cbn.
  rewrite Nat.eqb_refl. cbn.
  destruct responses as [[|x l]|]; try discriminate; done.
Qed.

Lemma handleFile_success_without_pairs_witness :
  map UploadPage.content
    (UploadPage.chatContainer
       (UploadPage.handleFile_settled 0
          (Json true (UploadData.mk "success" (Some []) None)) "not a child"
          (fst (UploadPage.handleFile_begin budget_xlsx UploadPage.initial))))
  = [UploadPage.EmptyMessage UploadPage.no_questions_text].
Proof.
  exact (proj1 (handleFile_success_without_pairs budget_xlsx (Some []) None
                  true "not a child" UploadPage.initial eq_refl eq_refl)).
Defined.

(** X18: the other outcomes of an upload on the static page, with no other
    upload in between.  The thinking message is removed, the progress bar
    is hidden at 0% at once, no timer is set, and exactly one error
    notification is shown: ["Error: "] followed by the [message] of the
    answer for a status other than ["success"] (["Error: undefined"] when
    the answer has no message), ["Error uploading file: "] followed by the
    message of the error when [fetch] or [response.json()] fails. *)
Theorem handleFile_error_outcomes (file : File.t)
    (r : fetched UploadData.t) (notAChild : string) (s : UploadPage.state) :
  JsString.match_excel (File.name file) = true ->
  match r with
  | Json _ data => String.eqb (UploadData.status data) "success" = false
  | _ => True
  end ->
  UploadPage.handleFile_settled (UploadPage.next_node s) r notAChild
    (fst (UploadPage.handleFile_begin file s))
  = UploadPage.mk [] (S (UploadPage.next_node s))
      (UploadPage.notifications s ++
         [(match r with
           | Json _ data =>
               "Error: " +:+ default "undefined" (UploadData.message data)
           | NotJson _ message => "Error uploading file: " +:+ message
           | NoResponse message => "Error uploading file: " +:+ message
           end, "error")])
      true "0%"
      (UploadPage.requests s ++ [Static.Fetch "/upload" file])
      (UploadPage.timeouts s).
Proof.
  intros Hname Hr.
  rewrite (handleFile_begin_accepted file s Hname). cbn [fst].
  destruct r as [m|ok m|ok data];
    unfold UploadPage.handleFile_settled, UploadPage.handleFile_catch,
      UploadPage.contains, UploadPage.without;
    cbn; rewrite !Nat.eqb_refl; cbn; try done.
  cbn in Hr. by rewrite Hr.
Qed.

Lemma handleFile_error_outcomes_witness :
  UploadPage.notifications
    (UploadPage.handleFile_settled 0
       (Json false (UploadData.mk "error" None None)) "not a child"
       (fst (UploadPage.handleFile_begin budget_xlsx UploadPage.initial)))
  = [("Error: undefined", "error")].
Proof.
  exact (f_equal UploadPage.notifications
           (handleFile_error_outcomes budget_xlsx
              (Json false (UploadData.mk "error" None None)) "not a child"
              UploadPage.initial eq_refl eq_refl)).
Defined.

(** X19: two uploads on the static page, the second started before the
    first is answered.  The second call empties the container, so the
    thinking message of the first is no longer a child of it: when the
    answer of the first arrives, whatever it is, [removeChild] throws, the
    answer is reported as an upload error and is not shown, no timer is
    set, and the progress bar is hidden although the second upload is still
    running; the thinking message of the second stays. *)
Theorem handleFile_overlapping_uploads (first second : File.t)
    (ok : bool) (data : UploadData.t) (notAChild : string)
    (s : UploadPage.state) :
  JsString.match_excel (File.name first) = true ->
  JsString.match_excel (File.name second) = true ->
  UploadPage.handleFile_settled (UploadPage.next_node s) (Json ok data)
    notAChild
    (fst (UploadPage.handleFile_begin second
            (fst (UploadPage.handleFile_begin first s))))
  = UploadPage.mk
      [UploadPage.mkNode (S (UploadPage.next_node s))
         (UploadPage.MessageElement Static.thinkingMessage)]
      (S (S (UploadPage.next_node s)))
      (UploadPage.notifications s
         ++ [("Error uploading file: " +:+ notAChild, "error")])
      true "0%"
      ((UploadPage.requests s ++ [Static.Fetch "/upload" first])
         ++ [Static.Fetch "/upload" second])
      (UploadPage.timeouts s).
Proof.
  intros H1 H2.
  rewrite (handleFile_begin_accepted first s H1). cbn [fst].
  rewrite handleFile_begin_accepted by exact H2. cbn [fst].
  unfold UploadPage.handleFile_settled, UploadPage.handleFile_catch,
    UploadPage.contains. cbn -[Nat.eqb].
  assert ((S (UploadPage.next_node s) =? UploadPage.next_node s)%nat = false)
    as -> by (apply Nat.eqb_neq; lia).
  reflexivity.
Qed.

Lemma handleFile_overlapping_uploads_witness :
  UploadPage.notifications
    (UploadPage.handleFile_settled 0
       (Json true
          (UploadData.mk "success"
             (Some [UploadItem.mk "Q1 spend?" "$10k" (Some "sheet1")]) None))
       "not a child"
       (fst (UploadPage.handleFile_begin (File.mk "other.xls" "")
               (fst (UploadPage.handleFile_begin budget_xlsx
                       UploadPage.initial)))))
  = [("Error uploading file: not a child", "error")].
Proof.
  exact (f_equal UploadPage.notifications
           (handleFile_overlapping_uploads budget_xlsx
              (File.mk "other.xls" "") true
              (UploadData.mk "success"
                 (Some [UploadItem.mk "Q1 spend?" "$10k" (Some "sheet1")])
                 None)
              "not a child" UploadPage.initial eq_refl eq_refl)).
Defined.

(** X20: the source tags of what [displayResponses] shows.  A question
    never has one; an answer always has one, ["Source: "] followed by the
    source of the pair, or by ["AI Assistant"] when the pair has no source
    or an empty one. *)
Theorem shown_source_tags (responses : list UploadItem.t) :
  flat_map (fun c => match c with
                     | UploadPage.MessageElement e => [UploadPage.source_tag e]
                     | UploadPage.EmptyMessage _ => []
                     end) (UploadPage.shown responses)
  = flat_map (fun item =>
                [None;
                 Some ("Source: "
                       +:+ JsString.or_else (UploadItem.source item)
                             "AI Assistant")]) responses.
Proof.
  induction responses as [|item rest IH]; [done|].
  cbn [UploadPage.shown flat_map app]. rewrite IH. f_equal. f_equal.
  unfold UploadPage.source_tag. cbn.
  by rewrite (or_else_truthy (UploadItem.source item) "AI Assistant").
Qed.

(** ** The chat section *)

Lemma click_begin_sent (s : ChatModel.state) :
  JsString.truthy (JsString.trim (ChatModel.chatModelInput s)) = true ->
  ChatModel.click_begin s =
    (ChatModel.mk
       (ChatModel.chatModelContainer s
          ++ [(JsString.trim (ChatModel.chatModelInput s), "question")])
       ""
       (ChatModel.posted s ++ [JsString.trim (ChatModel.chatModelInput s)])
       (ChatModel.console s),
     Some (JsString.trim (ChatModel.chatModelInput s))).
Proof. intros H. unfold ChatModel.click_begin. cbn. by rewrite H. Qed.

(** X21: the send button of the static chat does nothing, and posts
    nothing, exactly when the input consists of white space only. *)
Theorem chat_click_noop_iff_blank (r : fetched ChatModel.answer)
    (s : ChatModel.state) :
  ChatModel.click r s = s <-> blank (ChatModel.chatModelInput s) = true.
Proof.
  rewrite <- trim_empty_iff. unfold ChatModel.click. split.
  - intros H.
    destruct (JsString.truthy (JsString.trim (ChatModel.chatModelInput s)))
      eqn:Ht; [|by apply truthy_false].
    exfalso. rewrite (click_begin_sent s Ht) in H.
    apply (f_equal ChatModel.posted) in H.
    destruct r as [m|ok m|[|] data]; cbn in H;
      apply (f_equal length) in H; rewrite length_app in H; cbn in H; lia.
  - intros H. unfold ChatModel.click_begin. cbn. by rewrite H.
Qed.

(** X22: a click with a text that does not trim to empty appends the
    trimmed text as a question, empties the input and posts the text; when
    the request settles, whatever the container holds by then, exactly one
    answer bubble is appended: the [response] of the body when the response
    is [ok] and its body is JSON, the apology otherwise - a response that is
    not [ok] shows the apology whatever its body says. *)
Theorem chat_click_question_and_answer (r : fetched ChatModel.answer)
    (s : ChatModel.state) :
  JsString.truthy (JsString.trim (ChatModel.chatModelInput s)) = true ->
  let text :=
    match r with
    | Json true data => ChatModel.response data
    | _ => "Sorry, something went wrong."
    end in
  (forall s', ChatModel.chatModelContainer (ChatModel.click_settled r s')
              = ChatModel.chatModelContainer s' ++ [(text, "response")]
              /\ ChatModel.posted (ChatModel.click_settled r s')
                 = ChatModel.posted s')
  /\ ChatModel.chatModelContainer (ChatModel.click r s)
     = ChatModel.chatModelContainer s
         ++ [(JsString.trim (ChatModel.chatModelInput s), "question");
             (text, "response")]
  /\ ChatModel.chatModelInput (ChatModel.click r s) = ""
  /\ ChatModel.posted (ChatModel.click r s)
     = ChatModel.posted s ++ [JsString.trim (ChatModel.chatModelInput s)].
Proof.
  intros Ht text. subst text. split.
  - intros s'. by destruct r as [m|ok m|[|] data].
  - unfold ChatModel.click. rewrite (click_begin_sent s Ht).
    destruct r as [m|ok m|[|] data]; cbn; rewrite <- app_assoc; done.
Qed.

Lemma chat_click_question_and_answer_witness :
  ChatModel.chatModelContainer
    (ChatModel.click (Json false (ChatModel.mkAnswer "On track"))
       (ChatModel.mk [] " status? " [] []))
  = [("status?", "question"); ("Sorry, something went wrong.", "response")].
Proof.
  exact (proj1 (proj2
           (chat_click_question_and_answer
              (Json false (ChatModel.mkAnswer "On track"))
              (ChatModel.mk [] " status? " [] []) eq_refl))).
Defined.

(** ** Where the renderer offers feedback *)

Lemma truthy_prefixed (c : ascii) (a b : string) :
  JsString.truthy (String c a +:+ b) = true.
Proof. by rewrite string_app_cons. Qed.

Lemma plain_has_no_id (text : string) (isUser : bool) :
  id_on_assistant_entry (Msg.plain text isUser).
Proof. intros s H. discriminate. Qed.

Lemma entries_nil (res : completion unit * world) (w w' : world) :
  res = (Normal tt, w') -> messages w' = messages w ->
  exists w' new,
    res = (Normal tt, w')
    /\ messages w' = messages w ++ new
    /\ Forall id_on_assistant_entry new.
Proof.
  intros -> Hm. exists w', []. rewrite app_nil_r. repeat split; [done|].
  constructor.
Qed.

Lemma entries_plain (res : completion unit * world) (w w' : world)
    (text : string) (isUser : bool) :
  res = (Normal tt, w') ->
  messages w' = messages w ++ [Msg.plain text isUser] ->
  exists w' new,
    res = (Normal tt, w')
    /\ messages w' = messages w ++ new
    /\ Forall id_on_assistant_entry new.
Proof.
  intros -> Hm. exists w', [Msg.plain text isUser]. repeat split; [done|].
  constructor; [apply plain_has_no_id|constructor].
Qed.

Lemma run_step_entries (s : step) (w : world) :
  exists w' new,
    run_step s w = (Normal tt, w')
    /\ messages w' = messages w ++ new
    /\ Forall id_on_assistant_entry new.
Proof.
  destruct s as [value|files| |userMessage r| |r|fd|fd r|id|id|id];
    cbn [run_step].
  - unfold setInput, modify. eapply entries_nil; reflexivity.
  - destruct files; unfold handleFileChange; run_monad;
      eapply entries_nil; reflexivity.
  - unfold sendMessage_begin. run_monad.
    destruct (JsString.truthy (JsString.trim (input w))); cbn;
      [eapply entries_plain; reflexivity|eapply entries_nil; reflexivity].
  - destruct r as [data|e]; unfold sendMessage_resume; run_monad;
      (eexists _, [_]; split; [reflexivity|]; split; [reflexivity|];
       constructor; [|constructor]; intros s [= <-]; cbn -[pretty];
       auto using pretty_Z_truthy).
  - unfold uploadFile_begin. run_monad. destruct (selectedFile w); cbn;
      [eapply entries_plain; reflexivity|eapply entries_nil; reflexivity].
  - destruct r as [[status responses message]|e];
      unfold uploadFile_resume; run_monad.
    + destruct (String.eqb status "success"); cbn -[pretty];
        [destruct responses as [items|]; cbn -[pretty];
           [rewrite map_qaItems_run; cbn -[pretty]|]|].
      * eexists _, [_; _; _]. split; [reflexivity|]. cbn -[pretty].
        rewrite <- !app_assoc. split; [reflexivity|].
        constructor; [|constructor; [|constructor; [|constructor]]].
        -- intros s [= <-]. cbn -[pretty]. auto using truthy_prefixed.
        -- intros s [= <-]. cbn -[pretty]. auto using truthy_prefixed.
        -- intros s H. discriminate.
      * eexists _, [_; _]. split; [reflexivity|]. cbn -[pretty].
        rewrite <- !app_assoc. split; [reflexivity|].
        constructor; [|constructor; [apply plain_has_no_id|constructor]].
        intros s [= <-]. cbn -[pretty]. auto using truthy_prefixed.
      * eapply entries_plain; reflexivity.
    + eapply entries_plain; reflexivity.
  - unfold bind.
    destruct (handleFeedbackSubmit_begin_cases fd w) as (sent & evs & ->).
    unfold ret. eapply entries_nil; reflexivity.
  - destruct (handleFeedbackSubmit_resume_cases fd r w)
      as (evs & vis & -> & _).
    eapply entries_nil; reflexivity.
  - unfold toggleFeedback. run_monad. eapply entries_nil; reflexivity.
  - unfold openFeedback. run_monad. eapply entries_nil; reflexivity.
  - unfold handleCancelFeedback. run_monad. eapply entries_nil; reflexivity.
Qed.

Lemma run_steps_entries (steps : list step) (w : world) :
  Forall id_on_assistant_entry (messages w) ->
  Forall id_on_assistant_entry (messages (run_steps steps w)).
Proof.
  revert w. induction steps as [|s steps IH]; intros w H; [exact H|].
  cbn [run_steps].
  destruct (run_step_entries s w) as (w1 & new & E & Hm & Hnew).
  rewrite E. cbn [snd]. apply IH. rewrite Hm. by apply Forall_app.
Qed.

(** X23: in a session that starts from messages without ids, the renderer
    puts the suggestion toggle below exactly the entries that carry an id
    and are not QA containers: the answers of the chat, the fallback answer
    of a failed chat request and the confirmation of an upload; never below
    a user message, an upload error or the download prompt. *)
Theorem session_feedback_toggles (steps : list step) (w : world) (m : Msg.t) :
  session_ids (messages w) = [] ->
  In m (messages (run_steps steps w)) ->
  feedback_toggle_shown m = true
  <-> is_Some (Msg.id m) /\ Msg.isQAContainer m = false.
Proof.
  intros Hnone Hin.
  assert (Forall id_on_assistant_entry (messages w)) as H0.
  { apply List.Forall_forall. intros x Hx s Hs.
    assert (In s (session_ids (messages w))) as Hs'
      by (apply in_session_ids; exists x; auto).
    rewrite Hnone in Hs'. destruct Hs'. }
  pose proof (run_steps_entries steps w H0) as H.
  rewrite List.Forall_forall in H. specialize (H m Hin).
  unfold feedback_toggle_shown. split.
  - intros [Hq [[_ _]%andb_true_iff Hid]%andb_true_iff]%andb_true_iff.
    split; [|by apply negb_true_iff].
    destruct (Msg.id m); [eauto|discriminate].
  - intros [[s Hs] Hq]. destruct (H s Hs) as (Hu & Hd & Ht).
    by rewrite Hq, Hu, Hd, Hs.
Qed.

Lemma session_feedback_toggles_witness :
  feedback_toggle_shown
    (Msg.with_id "file-1700000000004"
       "File processed successfully! Here are the responses to your questions:")
  = true
  <-> is_Some
        (Msg.id
           (Msg.with_id "file-1700000000004"
              "File processed successfully! Here are the responses to your questions:"))
      /\ Msg.isQAContainer
           (Msg.with_id "file-1700000000004"
              "File processed successfully! Here are the responses to your questions:")
         = false.
Proof.
  apply (session_feedback_toggles sample_session
           (initial_world running_clock)).
  - reflexivity.
  - vm_compute. do 3 right. left. reflexivity.
Defined.
